(** * MNQ hybrid trader: risk manager, trade statistics and backtest loop

    A shallow embedding of [engines/risk_manager.py], of
    [utils/helpers.calculate_avg_rr] and of [engines/backtester.run_backtest].

    Numbers.  Python [float] values are modelled as exact rationals [Q]
    (no NaN, no infinities, no binary rounding); Python [int] values as [Z].
    [round(x, 2)] is the round-half-to-even of the exact value.
    Dictionaries keyed by trade id are [gmap Z _]. *)

From Stdlib Require Import ZArith QArith Qround Qabs Lia Lqa.
From stdpp Require Import base option list gmap strings pretty.

Local Open Scope Z_scope.

(** ** Numeric primitives *)

Module Num.

Definition Qleb (x y : Q) : bool := Qle_bool x y.
Definition Qltb (x y : Q) : bool := negb (Qle_bool y x).
Definition Qmaxq (x y : Q) : Q := if Qltb x y then y else x.
Definition Qminq (x y : Q) : Q := if Qltb y x then y else x.

(** Python [int(x)] on a float: truncation towards zero. *)
Definition py_int (x : Q) : Z := Z.quot (Qnum x) (Z.pos (Qden x)).

(** Nearest integer, ties to the even neighbour. *)
Definition round_half_even (x : Q) : Z :=
  let f := Qfloor x in
  let r := (x - inject_Z f)%Q in
  if Qltb r (1 # 2) then f
  else if Qltb (1 # 2) r then f + 1
  else if Z.even f then f else f + 1.

(** Python [round(x, 2)]. *)
Definition round2 (x : Q) : Q := Qmake (round_half_even (x * 100)) 100.

(** The format specification [:.2f]. *)
Definition fmt_2f (x : Q) : string :=
  let c := round_half_even (Qabs x * 100) in
  let frac := c mod 100 in
  let sign : string := if Qltb x 0 then "-" else "" in
  let pad : string := if Z.ltb frac 10 then "0" else "" in
  (sign ++ pretty (c / 100) ++ "." ++ pad ++ pretty frac)%string.

Definition Qsum (l : list Q) : Q := fold_right Qplus 0%Q l.

(** [Series.mean()] of a non-empty column. *)
Definition mean (l : list Q) : Q :=
  (Qsum l / inject_Z (Z.of_nat (length l)))%Q.

End Num.
Export Num.

(** ** Configuration ([utils/config.py]) *)

Definition MNQ_POINT_VALUE : Q := 2.

Record StrategyConfig := {
  account_size : Q;
  risk_per_trade_pct : Q;
  max_daily_loss_pct : Q;
  symbol : string;
  timeframe : string;
  trend_ema_period : Z;
  fast_ema_period : Z;
  slow_ema_period : Z;
  volume_sma_period : Z;
  volume_multiplier : Q;
  atr_period : Z;
  atr_stop_multiplier : Q;
  atr_breakout_multiplier : Q;
  stop_loss_points : Q;
  reward_risk_ratio : Q;
  trailing_stop_pct : Q;
  use_atr_stops : bool;
  max_trades_per_session : Z;
  session_start : string;
  session_end : string;
  orb_period_minutes : Z;
  orb_atr_filter : bool;
  strategy_mode : string;
  trend_vs_scalp_bias : Q;
  slippage_pct : Q;
  commission_per_contract : Q;
  paper_mode : bool
}.

(** The dataclass defaults (environment overrides absent). *)
Definition default_config : StrategyConfig := {|
  account_size := 25000;
  risk_per_trade_pct := 25 # 10000;
  max_daily_loss_pct := 2 # 100;
  symbol := "MNQ";
  timeframe := "5m";
  trend_ema_period := 50;
  fast_ema_period := 9;
  slow_ema_period := 21;
  volume_sma_period := 20;
  volume_multiplier := 12 # 10;
  atr_period := 14;
  atr_stop_multiplier := 15 # 10;
  atr_breakout_multiplier := 1;
  stop_loss_points := 25;
  reward_risk_ratio := 175 # 100;
  trailing_stop_pct := 1 # 2;
  use_atr_stops := true;
  max_trades_per_session := 6;
  session_start := "08:30";
  session_end := "15:00";
  orb_period_minutes := 15;
  orb_atr_filter := true;
  strategy_mode := "hybrid1";
  trend_vs_scalp_bias := 7 # 10;
  slippage_pct := 1 # 1000;
  commission_per_contract := 62 # 100;
  paper_mode := true
|}.

(** ** Risk manager ([engines/risk_manager.py]) *)

(** The dictionary stored per open trade by [process_entry]. *)
Record Position := {
  direction : string;
  entry_price : Q;
  stop_loss : Q;
  take_profit : Q;
  quantity : Z;
  highest_price : Q;
  lowest_price : Q;
  entry_time : string
}.

Definition set_stop_loss (s : Q) (p : Position) : Position :=
  {| direction := direction p; entry_price := entry_price p; stop_loss := s;
     take_profit := take_profit p; quantity := quantity p;
     highest_price := highest_price p; lowest_price := lowest_price p;
     entry_time := entry_time p |}.

Definition set_highest_price (h : Q) (p : Position) : Position :=
  {| direction := direction p; entry_price := entry_price p;
     stop_loss := stop_loss p; take_profit := take_profit p;
     quantity := quantity p; highest_price := h;
     lowest_price := lowest_price p; entry_time := entry_time p |}.

Definition set_lowest_price (l : Q) (p : Position) : Position :=
  {| direction := direction p; entry_price := entry_price p;
     stop_loss := stop_loss p; take_profit := take_profit p;
     quantity := quantity p; highest_price := highest_price p;
     lowest_price := l; entry_time := entry_time p |}.

(** The dictionary built by a successful [process_exit]. *)
Record ExitRecord := {
  x_trade_id : Z;
  x_direction : string;
  x_entry_price : Q;
  x_exit_price : Q;
  x_adj_exit_price : Q;
  x_pnl_points : Q;
  x_gross_pnl : Q;
  x_commission : Q;
  x_slippage_cost : Q;
  x_net_pnl : Q;
  x_quantity : Z;
  x_exit_reason : string
}.

(** What [process_exit] returns: the four-key zero dictionary for an unknown
    id, the full record otherwise. *)
Inductive ExitResult :=
  | ExitUnknown
  | ExitDone (r : ExitRecord).

Record RiskManager := {
  config : StrategyConfig;
  daily_pnl : Q;
  trades_today : Z;
  is_shutdown : bool;
  shutdown_reason : string;
  open_positions : gmap Z Position;
  trade_log : list ExitRecord
}.

Definition is_long (p : Position) : bool := String.eqb (direction p) "LONG".

Module RM.

Definition init (c : StrategyConfig) : RiskManager :=
  {| config := c; daily_pnl := 0; trades_today := 0; is_shutdown := false;
     shutdown_reason := ""; open_positions := ∅; trade_log := [] |}.

Definition reset_daily (rm : RiskManager) : RiskManager :=
  {| config := config rm; daily_pnl := 0; trades_today := 0;
     is_shutdown := false; shutdown_reason := "";
     open_positions := open_positions rm; trade_log := trade_log rm |}.

Definition max_loss (rm : RiskManager) : Q :=
  (account_size (config rm) * max_daily_loss_pct (config rm))%Q.

Definition set_shutdown (reason : string) (rm : RiskManager) : RiskManager :=
  {| config := config rm; daily_pnl := daily_pnl rm;
     trades_today := trades_today rm; is_shutdown := true;
     shutdown_reason := reason; open_positions := open_positions rm;
     trade_log := trade_log rm |}.

Definition set_open_positions (m : gmap Z Position) (rm : RiskManager)
  : RiskManager :=
  {| config := config rm; daily_pnl := daily_pnl rm;
     trades_today := trades_today rm; is_shutdown := is_shutdown rm;
     shutdown_reason := shutdown_reason rm; open_positions := m;
     trade_log := trade_log rm |}.

Definition can_trade (rm : RiskManager) : (bool * string) * RiskManager :=
  if is_shutdown rm then
    ((false, "Trading halted: " ++ shutdown_reason rm)%string, rm)
  else if Qleb (daily_pnl rm) (- max_loss rm) then
    let reason :=
      ("Max daily loss reached ($" ++ fmt_2f (max_loss rm) ++ ")")%string in
    ((false, reason), set_shutdown reason rm)
  else if trades_today rm >=? max_trades_per_session (config rm) then
    ((false, "Max trades per session reached ("
               ++ pretty (max_trades_per_session (config rm)) ++ ")")%string,
     rm)
  else if (0 <? size (open_positions rm))%nat then
    ((false, "Position already open — wait for exit"), rm)
  else ((true, "OK"), rm).

Definition calculate_position_size (rm : RiskManager) (stop_distance_points : Q)
  : Z :=
  if Qleb stop_distance_points 0 then 0
  else
    let risk_amount :=
      (account_size (config rm) * risk_per_trade_pct (config rm))%Q in
    let cost_per_contract := (stop_distance_points * MNQ_POINT_VALUE)%Q in
    let contracts := py_int (risk_amount / cost_per_contract) in
    let contracts :=
      if (contracts =? 0) && Qleb (1 # 2) (risk_amount / cost_per_contract)
      then 1 else contracts in
    let max_by_margin :=
      py_int (account_size (config rm)
              / Qmaxq (account_size (config rm) * (1 # 100)) 1) in
    let contracts := Z.min contracts (Z.max 1 max_by_margin) in
    Z.max 0 contracts.

(** [now] is the reading of [datetime.now().isoformat()]. *)
Definition process_entry (rm : RiskManager) (trade_id : Z) (dir : string)
    (entry stop target : Q) (qty : Z) (now : string) : RiskManager :=
  {| config := config rm; daily_pnl := daily_pnl rm;
     trades_today := trades_today rm + 1;
     is_shutdown := is_shutdown rm; shutdown_reason := shutdown_reason rm;
     open_positions :=
       <[trade_id := {| direction := dir; entry_price := entry;
                        stop_loss := stop; take_profit := target;
                        quantity := qty; highest_price := entry;
                        lowest_price := entry; entry_time := now |}]>
         (open_positions rm);
     trade_log := trade_log rm |}.

Definition process_exit (rm : RiskManager) (trade_id : Z) (exit_price : Q)
    (reason : string) : ExitResult * RiskManager :=
  match open_positions rm !! trade_id with
  | None => (ExitUnknown, rm)
  | Some pos =>
    let entry := entry_price pos in
    let qty := inject_Z (quantity pos) in
    let slippage_amount := (exit_price * slippage_pct (config rm))%Q in
    let adj_exit :=
      if is_long pos then (exit_price - slippage_amount)%Q
      else (exit_price + slippage_amount)%Q in
    let pnl_points :=
      if is_long pos then (adj_exit - entry)%Q else (entry - adj_exit)%Q in
    let gross_pnl := (pnl_points * MNQ_POINT_VALUE * qty)%Q in
    let commission := (commission_per_contract (config rm) * qty * 2)%Q in
    let slippage_cost := (slippage_amount * MNQ_POINT_VALUE * qty)%Q in
    let net_pnl := (gross_pnl - commission)%Q in
    let pnl' := (daily_pnl rm + net_pnl)%Q in
    let hit := Qleb pnl' (- max_loss rm) in
    let result :=
      {| x_trade_id := trade_id; x_direction := direction pos;
         x_entry_price := entry; x_exit_price := exit_price;
         x_adj_exit_price := adj_exit; x_pnl_points := round2 pnl_points;
         x_gross_pnl := round2 gross_pnl; x_commission := round2 commission;
         x_slippage_cost := round2 slippage_cost;
         x_net_pnl := round2 net_pnl; x_quantity := quantity pos;
         x_exit_reason := reason |} in
    (ExitDone result,
     {| config := config rm; daily_pnl := pnl';
        trades_today := trades_today rm;
        is_shutdown := if hit then true else is_shutdown rm;
        shutdown_reason :=
          if hit then
            ("Max daily loss reached after trade ($"
               ++ fmt_2f (Qabs pnl') ++ ")")%string
          else shutdown_reason rm;
        open_positions := delete trade_id (open_positions rm);
        trade_log := trade_log rm ++ [result] |})
  end.

(** The position dictionary is mutated in place, so every field written
    before an early [return None] stays written. *)
Definition update_trailing_stop (rm : RiskManager) (trade_id : Z)
    (current_price : Q) : option Q * RiskManager :=
  match open_positions rm !! trade_id with
  | None => (None, rm)
  | Some pos =>
    let entry := entry_price pos in
    let current_stop := stop_loss pos in
    let store p := set_open_positions (<[trade_id := p]> (open_positions rm)) rm in
    if is_long pos then
      let pos :=
        if Qltb (highest_price pos) current_price
        then set_highest_price current_price pos else pos in
      let profit := (current_price - entry)%Q in
      if Qleb profit 0 then (None, store pos)
      else
        let trail_amount := (profit * trailing_stop_pct (config rm))%Q in
        let new_stop := (highest_price pos - trail_amount)%Q in
        if Qltb current_stop new_stop then
          (Some (round2 new_stop), store (set_stop_loss (round2 new_stop) pos))
        else (None, store pos)
    else
      let pos :=
        if Qltb current_price (lowest_price pos)
        then set_lowest_price current_price pos else pos in
      let profit := (entry - current_price)%Q in
      if Qleb profit 0 then (None, store pos)
      else
        let trail_amount := (profit * trailing_stop_pct (config rm))%Q in
        let new_stop := (lowest_price pos + trail_amount)%Q in
        if Qltb new_stop current_stop then
          (Some (round2 new_stop), store (set_stop_loss (round2 new_stop) pos))
        else (None, store pos)
  end.

Definition check_exit_conditions (rm : RiskManager) (trade_id : Z)
    (current_high current_low current_close : Q)
  : option (Q * string) * RiskManager :=
  match open_positions rm !! trade_id with
  | None => (None, rm)
  | Some pos =>
    let stop := stop_loss pos in
    let target := take_profit pos in
    if is_long pos then
      if Qleb current_low stop then (Some (stop, "Stop Loss"), rm)
      else if Qleb target current_high then (Some (target, "Take Profit"), rm)
      else (None, snd (update_trailing_stop rm trade_id current_close))
    else
      if Qleb stop current_high then (Some (stop, "Stop Loss"), rm)
      else if Qleb current_low target then (Some (target, "Take Profit"), rm)
      else (None, snd (update_trailing_stop rm trade_id current_close))
  end.

End RM.

(** ** Sequences of risk-manager calls *)

(** One call of a state-changing or sizing method of a [RiskManager], with
    its arguments.  Return values are dropped: only the object is threaded. *)
Inductive Op :=
  | OpResetDaily
  | OpCanTrade
  | OpCalculatePositionSize (stop_distance_points : Q)
  | OpProcessEntry (trade_id : Z) (dir : string) (entry stop target : Q)
      (qty : Z) (now : string)
  | OpProcessExit (trade_id : Z) (exit_price : Q) (reason : string)
  | OpUpdateTrailingStop (trade_id : Z) (current_price : Q)
  | OpCheckExitConditions (trade_id : Z) (current_high current_low
      current_close : Q).

Definition apply_op (rm : RiskManager) (o : Op) : RiskManager :=
  match o with
  | OpResetDaily => RM.reset_daily rm
  | OpCanTrade => snd (RM.can_trade rm)
  | OpCalculatePositionSize _ => rm
  | OpProcessEntry i d e s t q now => RM.process_entry rm i d e s t q now
  | OpProcessExit i p r => snd (RM.process_exit rm i p r)
  | OpUpdateTrailingStop i p => snd (RM.update_trailing_stop rm i p)
  | OpCheckExitConditions i h l c => snd (RM.check_exit_conditions rm i h l c)
  end.

Definition run_ops (ops : list Op) (rm : RiskManager) : RiskManager :=
  fold_left apply_op ops rm.

Definition is_reset (o : Op) : bool :=
  match o with OpResetDaily => true | _ => false end.

(** No [reset_daily] among the calls. *)
Definition no_reset (ops : list Op) : bool := forallb (fun o => negb (is_reset o)) ops.

(** The two families of messages that report a shutdown. *)
Definition is_shutdown_message (s : string) : bool :=
  String.prefix "Trading halted: " s || String.prefix "Max daily loss reached" s.

(** The net result of a closed trade before the ledger rounds it, rebuilt
    from the unrounded fields of the record. *)
Definition exact_net_pnl (c : StrategyConfig) (r : ExitRecord) : Q :=
  let qty := inject_Z (x_quantity r) in
  let pnl_points :=
    if String.eqb (x_direction r) "LONG"
    then (x_adj_exit_price r - x_entry_price r)%Q
    else (x_entry_price r - x_adj_exit_price r)%Q in
  (pnl_points * MNQ_POINT_VALUE * qty - commission_per_contract c * qty * 2)%Q.

(** The part of the ledger appended after the first [n] records. *)
Definition ledger_since (n : nat) (rm : RiskManager) : list ExitRecord :=
  drop n (trade_log rm).

(** ** Trade statistics ([utils/helpers.py]) *)

(** The argument is the ["pnl"] column of the trades frame. *)
Definition calculate_win_rate (pnl : list Q) : Q :=
  if (length pnl =? 0)%nat then 0%Q
  else
    let winners := length (List.filter (fun x => Qltb 0 x) pnl) in
    (inject_Z (Z.of_nat winners) / inject_Z (Z.of_nat (length pnl)))%Q.

Definition calculate_avg_rr (pnl : list Q) : Q :=
  if (length pnl =? 0)%nat then 0%Q
  else
    let winners := List.filter (fun x => Qltb 0 x) pnl in
    let losers := List.filter (fun x => Qltb x 0) pnl in
    if (length losers =? 0)%nat || Qeq_bool (mean losers) 0 then
      if (0 <? length winners)%nat then mean winners else 0%Q
    else
      let avg_win := if (0 <? length winners)%nat then mean winners else 0%Q in
      let avg_loss := Qabs (mean losers) in
      if Qltb 0 avg_loss then (avg_win / avg_loss)%Q else 0%Q.

(** The claim's reading of the statistic, for comparison with the code:
    mean winning P&L over mean absolute losing P&L, 0 without losers. *)
Definition avg_rr_as_claimed (pnl : list Q) : Q :=
  let winners := List.filter (fun x => Qltb 0 x) pnl in
  let losers := List.filter (fun x => Qltb x 0) pnl in
  match losers with
  | [] => 0%Q
  | _ => (mean winners / mean (map Qabs losers))%Q
  end.

(** ** Backtest ([engines/backtester.py]) *)

Inductive PyExc := IndexError | KeyError.

Inductive res (A : Type) :=
  | Ok (a : A)
  | Raise (e : PyExc).
Arguments Ok {A} a.
Arguments Raise {A} e.

Record Bar := {
  timestamp : string;
  open : Q;
  high : Q;
  low : Q;
  close : Q;
  volume : Q
}.

(** Modelled from the spec: a row of the frame returned by
    [compute_indicators] of [strategies/strategy_engine.py]: the bar plus
    the derived columns. *)
Record EnrichedBar := {
  bar : Bar;
  ema_fast : Q;
  ema_slow : Q;
  ema_trend : Q;
  atr : Q;
  volume_confirmed : bool;
  rsi : Q;
  vwap : Q
}.

(** Modelled from the spec: the [Signal] enumeration of
    [strategies/strategy_engine.py] and the direction tag it carries. *)
Inductive Signal := LONG | SHORT | FLAT.

Definition Signal_value (s : Signal) : string :=
  match s with LONG => "LONG" | SHORT => "SHORT" | FLAT => "FLAT" end.

Definition Signal_eqb (a b : Signal) : bool :=
  match a, b with
  | LONG, LONG | SHORT, SHORT | FLAT, FLAT => true
  | _, _ => false
  end.

(** Modelled from the spec: the proposal object of
    [strategies/strategy_engine.py], with the attributes the backtest reads. *)
Record TradeSignal := {
  signal : Signal;
  sig_entry_price : Q;
  sig_stop_loss : Q;
  sig_take_profit : Q;
  confidence : Q;
  strategy : string;
  reason : string
}.

(** The [current_trade] dictionary. *)
Record CurrentTrade := {
  ct_id : Z;
  ct_direction : string;
  ct_entry_price : Q;
  ct_stop_loss : Q;
  ct_take_profit : Q;
  ct_quantity : Z;
  ct_strategy : string;
  ct_reason : string;
  ct_confidence : Q;
  ct_entry_bar : Z
}.

(** A row of the trade list: the entry dictionary plus the exit keys. *)
Record TradeRecord := {
  tr_entry : CurrentTrade;
  tr_exit_price : Q;
  tr_exit_reason : string;
  tr_pnl : Q;
  tr_gross_pnl : Q;
  tr_commission : Q;
  tr_exit_bar : Z;
  tr_bars_held : Z
}.

(** The shapes of [BacktestResult.metrics].  Of the summary only the entries
    that are exact functions of the ledger and of the balance are kept; the
    drawdown, Sharpe and date entries are not modelled. *)
Inductive Metrics :=
  | MetricsError (msg : string)
  | MetricsNoTrades (note : string) (walk_forward : bool)
  | MetricsSummary (total_trades winning_trades losing_trades : Z)
      (win_rate avg_rr net_pnl final_balance : Q) (walk_forward : bool)
      (in_sample_pct : Q).

Record BacktestResult := {
  trades : list TradeRecord;
  equity_curve : list Q;
  daily_returns : list Q;
  metrics : Metrics;
  signals_generated : Z;
  signals_filtered : Z
}.

(** The local variables of [run_backtest] that live across loop iterations. *)
Record LoopState := {
  risk_mgr : RiskManager;
  account : Q;
  equity : list Q;
  ls_trades : list TradeRecord;
  current_trade : option CurrentTrade;
  trade_id_counter : Z;
  orb_high : option Q;
  orb_low : option Q;
  ls_signals_generated : Z;
  ls_signals_filtered : Z
}.

Definition len {A} (l : list A) : Z := Z.of_nat (length l).

(** [frame.iloc[i]]: negative positions count from the end, positions
    outside the frame raise. *)
Definition iloc {A} (l : list A) (i : Z) : res A :=
  let j := if i <? 0 then len l + i else i in
  if (0 <=? j) && (j <? len l) then
    match l !! Z.to_nat j with
    | Some x => Ok x
    | None => Raise IndexError
    end
  else Raise IndexError.

Definition slice_bound (n i : Z) : Z :=
  if i <? 0 then Z.max (n + i) 0 else Z.min i n.

(** [frame.iloc[i:j]]: bounds are clamped, never raises. *)
Definition iloc_slice {A} (l : list A) (i j : Z) : list A :=
  let a := slice_bound (len l) i in
  let b := slice_bound (len l) j in
  take (Z.to_nat (b - a)) (drop (Z.to_nat a) l).

Definition column_max (l : list Q) : option Q :=
  match l with
  | [] => None
  | x :: t => Some (fold_left Qmaxq t x)
  end.

Definition column_min (l : list Q) : option Q :=
  match l with
  | [] => None
  | x :: t => Some (fold_left Qminq t x)
  end.

(** [range(a, b)]. *)
Definition py_range (a b : Z) : list Z :=
  map (fun k => a + Z.of_nat k) (seq 0 (Z.to_nat (b - a))).

Section Backtest.

(** The strategy engine ([strategies/strategy_engine.py]) is a collaborator
    of the loop: any indicator and signal functions may be plugged in.
    [clock] is the reading of the wall clock taken when the trade with the
    given id is registered. *)
Variable compute_indicators : list Bar → StrategyConfig → list EnrichedBar.
Variable generate_signal_hybrid1 :
  list EnrichedBar → StrategyConfig → Z → option TradeSignal.
Variable generate_signal_hybrid2 :
  list EnrichedBar → StrategyConfig → option Q → option Q → Z
  → option TradeSignal.
Variable clock : Z → string.

Variable cfg : StrategyConfig.
Variable df_full : list EnrichedBar.
Variable test_start : Z.

Definition set_risk_mgr (rm : RiskManager) (st : LoopState) : LoopState :=
  {| risk_mgr := rm; account := account st; equity := equity st;
     ls_trades := ls_trades st; current_trade := current_trade st;
     trade_id_counter := trade_id_counter st; orb_high := orb_high st;
     orb_low := orb_low st; ls_signals_generated := ls_signals_generated st;
     ls_signals_filtered := ls_signals_filtered st |}.

(** Lines 110-116: the session boundary, every 78 bars. *)
Definition phase_session (i : Z) (st : LoopState) : LoopState :=
  if i mod 78 =? 0 then
    let orb_slice := iloc_slice df_full i (i + 3) in
    let fresh := (2 <=? length orb_slice)%nat in
    {| risk_mgr := RM.reset_daily (risk_mgr st); account := account st;
       equity := equity st; ls_trades := ls_trades st;
       current_trade := current_trade st;
       trade_id_counter := trade_id_counter st;
       orb_high :=
         if fresh then column_max (map (fun r => high (bar r)) orb_slice)
         else orb_high st;
       orb_low :=
         if fresh then column_min (map (fun r => low (bar r)) orb_slice)
         else orb_low st;
       ls_signals_generated := ls_signals_generated st;
       ls_signals_filtered := ls_signals_filtered st |}
  else st.

Definition close_trade (ct : CurrentTrade) (r : ExitRecord) (exit_price : Q)
    (exit_reason : string) (exit_bar : Z) : TradeRecord :=
  {| tr_entry := ct; tr_exit_price := exit_price;
     tr_exit_reason := exit_reason; tr_pnl := x_net_pnl r;
     tr_gross_pnl := x_gross_pnl r; tr_commission := x_commission r;
     tr_exit_bar := exit_bar; tr_bars_held := exit_bar - ct_entry_bar ct |}.

(** Lines 119-141: exit check for the open trade.  The zero dictionary of an
    unknown id has no ["gross_pnl"] key, so reading it raises. *)
Definition phase_exit (i : Z) (row : EnrichedBar) (st : LoopState)
  : res LoopState :=
  match current_trade st with
  | None => Ok st
  | Some ct =>
    let '(exit_check, rm1) :=
      RM.check_exit_conditions (risk_mgr st) (ct_id ct)
        (high (bar row)) (low (bar row)) (close (bar row)) in
    match exit_check with
    | None => Ok (set_risk_mgr rm1 st)
    | Some (exit_price, exit_reason) =>
      let '(result_info, rm2) :=
        RM.process_exit rm1 (ct_id ct) exit_price exit_reason in
      match result_info with
      | ExitUnknown => Raise KeyError
      | ExitDone r =>
        Ok {| risk_mgr := rm2; account := (account st + x_net_pnl r)%Q;
              equity := equity st;
              ls_trades :=
                ls_trades st ++ [close_trade ct r exit_price exit_reason i];
              current_trade := None;
              trade_id_counter := trade_id_counter st;
              orb_high := orb_high st; orb_low := orb_low st;
              ls_signals_generated := ls_signals_generated st;
              ls_signals_filtered := ls_signals_filtered st |}
      end
    end
  end.

(** Lines 149-156: dispatch on the strategy mode; the combined mode keeps the
    first proposal unless the second is strictly more confident. *)
Definition select_signal (st : LoopState) (i : Z) : option TradeSignal :=
  if String.eqb (strategy_mode cfg) "hybrid1" then
    generate_signal_hybrid1 df_full cfg i
  else if String.eqb (strategy_mode cfg) "hybrid2" then
    generate_signal_hybrid2 df_full cfg (orb_high st) (orb_low st) i
  else
    let sig1 := generate_signal_hybrid1 df_full cfg i in
    let sig2 := generate_signal_hybrid2 df_full cfg (orb_high st) (orb_low st) i in
    match sig1, sig2 with
    | Some s1, None => Some s1
    | Some s1, Some s2 =>
      if Qleb (confidence s2) (confidence s1) then Some s1 else Some s2
    | None, _ => sig2
    end.

(** Lines 144-193: entry for a flat book. *)
Definition phase_entry (i : Z) (st : LoopState) : LoopState :=
  match current_trade st with
  | Some _ => st
  | None =>
    let '((can, _), rm1) := RM.can_trade (risk_mgr st) in
    let st1 := set_risk_mgr rm1 st in
    if can && (test_start + 3 <? i) then
      match select_signal st1 i with
      | None => st1
      | Some sg =>
        if Signal_eqb (signal sg) FLAT then st1
        else
          let stop_dist := Qabs (sig_entry_price sg - sig_stop_loss sg) in
          let qty := RM.calculate_position_size rm1 stop_dist in
          if (0 <? qty) && Qleb (1 # 2) (confidence sg) then
            let slippage := (sig_entry_price sg * slippage_pct cfg)%Q in
            let adj_entry :=
              if Signal_eqb (signal sg) LONG
              then (sig_entry_price sg + slippage)%Q
              else (sig_entry_price sg - slippage)%Q in
            let id := trade_id_counter st + 1 in
            {| risk_mgr :=
                 RM.process_entry rm1 id (Signal_value (signal sg)) adj_entry
                   (sig_stop_loss sg) (sig_take_profit sg) qty (clock id);
               account := account st; equity := equity st;
               ls_trades := ls_trades st;
               current_trade :=
                 Some {| ct_id := id;
                         ct_direction := Signal_value (signal sg);
                         ct_entry_price := round2 adj_entry;
                         ct_stop_loss := sig_stop_loss sg;
                         ct_take_profit := sig_take_profit sg;
                         ct_quantity := qty; ct_strategy := strategy sg;
                         ct_reason := reason sg;
                         ct_confidence := confidence sg;
                         ct_entry_bar := i |};
               trade_id_counter := id;
               orb_high := orb_high st; orb_low := orb_low st;
               ls_signals_generated := ls_signals_generated st + 1;
               ls_signals_filtered := ls_signals_filtered st |}
          else
            {| risk_mgr := rm1; account := account st; equity := equity st;
               ls_trades := ls_trades st; current_trade := None;
               trade_id_counter := trade_id_counter st;
               orb_high := orb_high st; orb_low := orb_low st;
               ls_signals_generated := ls_signals_generated st + 1;
               ls_signals_filtered := ls_signals_filtered st + 1 |}
      end
    else st1
  end.

(** Line 195. *)
Definition phase_equity (st : LoopState) : LoopState :=
  {| risk_mgr := risk_mgr st; account := account st;
     equity := equity st ++ [account st]; ls_trades := ls_trades st;
     current_trade := current_trade st;
     trade_id_counter := trade_id_counter st; orb_high := orb_high st;
     orb_low := orb_low st; ls_signals_generated := ls_signals_generated st;
     ls_signals_filtered := ls_signals_filtered st |}.

(** One iteration of the loop: the states reached after each of its four
    parts, and the state it ends in (or the exception that aborts it). *)
Definition bar_step (i : Z) (st : LoopState) : list LoopState * res LoopState :=
  match iloc df_full i with
  | Raise e => ([], Raise e)
  | Ok row =>
    let s1 := phase_session i st in
    match phase_exit i row s1 with
    | Raise e => ([s1], Raise e)
    | Ok s2 =>
      let s3 := phase_entry i s2 in
      let s4 := phase_equity s3 in
      ([s1; s2; s3; s4], Ok s4)
    end
  end.

Fixpoint run_loop (idxs : list Z) (st : LoopState)
  : list LoopState * res LoopState :=
  match idxs with
  | [] => ([], Ok st)
  | i :: rest =>
    match bar_step i st with
    | (seen, Raise e) => (seen, Raise e)
    | (seen, Ok st') =>
      let '(seen', r) := run_loop rest st' in (seen ++ seen', r)
    end
  end.

(** Lines 198-213: a trade still open after the last bar is closed at the
    last close, and the balance is sampled once more. *)
Definition final_close (st : LoopState) : res LoopState :=
  match current_trade st with
  | None => Ok st
  | Some ct =>
    match iloc df_full (-1) with
    | Raise e => Raise e
    | Ok last_row =>
      let last_price := close (bar last_row) in
      let '(result_info, rm2) :=
        RM.process_exit (risk_mgr st) (ct_id ct) last_price "Session End" in
      match result_info with
      | ExitUnknown => Raise KeyError
      | ExitDone r =>
        let account' := (account st + x_net_pnl r)%Q in
        Ok {| risk_mgr := rm2; account := account';
              equity := equity st ++ [account'];
              ls_trades :=
                ls_trades st
                  ++ [close_trade ct r last_price "Session End"
                        (len df_full - 1)];
              current_trade := current_trade st;
              trade_id_counter := trade_id_counter st;
              orb_high := orb_high st; orb_low := orb_low st;
              ls_signals_generated := ls_signals_generated st;
              ls_signals_filtered := ls_signals_filtered st |}
      end
    end
  end.

Definition initial_state : LoopState :=
  {| risk_mgr := RM.init cfg; account := account_size cfg;
     equity := [account_size cfg]; ls_trades := []; current_trade := None;
     trade_id_counter := 0; orb_high := None; orb_low := None;
     ls_signals_generated := 0; ls_signals_filtered := 0 |}.

(** Lines 216-256. *)
Definition compute_metrics (walk_forward : bool) (in_sample_pct : Q)
    (st : LoopState) : Metrics :=
  let pnl := map tr_pnl (ls_trades st) in
  if (0 <? length (ls_trades st))%nat then
    MetricsSummary (len (ls_trades st))
      (len (List.filter (fun x => Qltb 0 x) pnl))
      (len (List.filter (fun x => Qleb x 0) pnl))
      (calculate_win_rate pnl) (calculate_avg_rr pnl)
      (round2 (account st - account_size cfg)) (round2 (account st))
      walk_forward (if walk_forward then in_sample_pct else 1%Q)
  else
    MetricsNoTrades
      "No trades generated. Try adjusting parameters or using more data."
      walk_forward.

(** The loop, the closing of a leftover trade and the result object, with
    every state passed through on the way. *)
Definition run_from_start (walk_forward : bool) (in_sample_pct : Q)
  : list LoopState * res BacktestResult :=
  match run_loop (py_range test_start (len df_full)) initial_state with
  | (seen, Raise e) => (initial_state :: seen, Raise e)
  | (seen, Ok st) =>
    match final_close st with
    | Raise e => (initial_state :: seen, Raise e)
    | Ok st' =>
      (initial_state :: seen ++ [st'],
       Ok {| trades := ls_trades st'; equity_curve := equity st';
             daily_returns := []; metrics := compute_metrics walk_forward
                                               in_sample_pct st';
             signals_generated := ls_signals_generated st';
             signals_filtered := ls_signals_filtered st' |})
    end
  end.

End Backtest.

Section RunBacktest.

Variable compute_indicators : list Bar → StrategyConfig → list EnrichedBar.
Variable generate_signal_hybrid1 :
  list EnrichedBar → StrategyConfig → Z → option TradeSignal.
Variable generate_signal_hybrid2 :
  list EnrichedBar → StrategyConfig → option Q → option Q → Z
  → option TradeSignal.
Variable clock : Z → string.

(** Lines 86-94: where the evaluated bars begin. *)
Definition start_index (df : list Bar) (cfg : StrategyConfig)
    (walk_forward : bool) (in_sample_pct : Q) : Z :=
  if walk_forward then py_int (inject_Z (len df) * in_sample_pct)
  else trend_ema_period cfg + 5.

Definition insufficient_data : BacktestResult :=
  {| trades := []; equity_curve := []; daily_returns := [];
     metrics := MetricsError "Insufficient data for backtest";
     signals_generated := 0; signals_filtered := 0 |}.

(** [run_backtest] together with the loop states it passes through, in
    order. *)
Definition run_backtest_trace (df : list Bar) (cfg : StrategyConfig)
    (walk_forward : bool) (in_sample_pct : Q)
  : list LoopState * res BacktestResult :=
  if len df <? trend_ema_period cfg + 20 then ([], Ok insufficient_data)
  else
    run_from_start generate_signal_hybrid1 generate_signal_hybrid2 clock cfg
      (compute_indicators df cfg)
      (start_index df cfg walk_forward in_sample_pct)
      walk_forward in_sample_pct.

Definition run_backtest (df : list Bar) (cfg : StrategyConfig)
    (walk_forward : bool) (in_sample_pct : Q) : res BacktestResult :=
  snd (run_backtest_trace df cfg walk_forward in_sample_pct).

(** The bars the evaluation loop iterates over. *)
Definition bars_processed (df : list Bar) (cfg : StrategyConfig)
    (walk_forward : bool) (in_sample_pct : Q) : list Z :=
  py_range (start_index df cfg walk_forward in_sample_pct)
    (len (compute_indicators df cfg)).

End RunBacktest.

(** The book-keeping relation between the loop's [current_trade] and the
    manager's position map: no trade, no position; a trade, exactly its
    position. *)
Definition book_ok (st : LoopState) : Prop :=
  match current_trade st with
  | None => open_positions (risk_mgr st) = ∅
  | Some ct => ∃ p : Position, open_positions (risk_mgr st) = {[ct_id ct := p]}
  end.

(** Trades closed by the forced exit after the last bar. *)
Definition is_session_end (t : TradeRecord) : bool :=
  String.eqb (tr_exit_reason t) "Session End".

Definition session_end_count (l : list TradeRecord) : nat :=
  length (List.filter is_session_end l).

(** A concrete strategy engine used to exercise the loop: indicators that
    copy the bars, a first strategy that proposes the same long trade on
    every bar, a second strategy that never proposes. *)
Module Demo.

Definition flat_bar : Bar :=
  {| timestamp := ""; open := 100; high := 100; low := 100; close := 100;
     volume := 1000 |}.

Definition enrich (b : Bar) : EnrichedBar :=
  {| bar := b; ema_fast := close b; ema_slow := close b; ema_trend := close b;
     atr := 0; volume_confirmed := false; rsi := 50; vwap := close b |}.

Definition compute_indicators (df : list Bar) (_ : StrategyConfig)
  : list EnrichedBar := map enrich df.

Definition always_long (_ : list EnrichedBar) (_ : StrategyConfig) (_ : Z)
  : option TradeSignal :=
  Some {| signal := LONG; sig_entry_price := 100; sig_stop_loss := 90;
          sig_take_profit := 1000; confidence := 1; strategy := "hybrid1";
          reason := "demo" |}.

Definition never (_ : list EnrichedBar) (_ : StrategyConfig)
    (_ _ : option Q) (_ : Z) : option TradeSignal := None.

Definition clock (_ : Z) : string := "2024-01-02T09:30:00".

Definition df : list Bar := replicate 70 flat_bar.

(** The defaults with [max_daily_loss_pct = 0]. *)
Definition no_loss_budget : StrategyConfig := {|
  account_size := 25000;
  risk_per_trade_pct := 25 # 10000;
  max_daily_loss_pct := 0;
  symbol := "MNQ";
  timeframe := "5m";
  trend_ema_period := 50;
  fast_ema_period := 9;
  slow_ema_period := 21;
  volume_sma_period := 20;
  volume_multiplier := 12 # 10;
  atr_period := 14;
  atr_stop_multiplier := 15 # 10;
  atr_breakout_multiplier := 1;
  stop_loss_points := 25;
  reward_risk_ratio := 175 # 100;
  trailing_stop_pct := 1 # 2;
  use_atr_stops := true;
  max_trades_per_session := 6;
  session_start := "08:30";
  session_end := "15:00";
  orb_period_minutes := 15;
  orb_atr_filter := true;
  strategy_mode := "hybrid1";
  trend_vs_scalp_bias := 7 # 10;
  slippage_pct := 1 # 1000;
  commission_per_contract := 62 # 100;
  paper_mode := true
|}.

(** A manager holding one long position under id 1, and one holding a short
    position under id 7. *)
Definition one_long : RiskManager :=
  RM.process_entry (RM.init default_config) 1 "LONG" 21500 21475 21550 1
    "2024-01-02T09:30:00".

Definition one_short : RiskManager :=
  RM.process_entry (RM.init default_config) 7 "SHORT" 21500 21525 21450 2
    "2024-01-02T09:30:00".

Definition run : res BacktestResult :=
  run_backtest compute_indicators always_long never clock df default_config
    false (7 # 10).

(** A long position whose stop (100.003) is not a whole number of cents,
    and its short mirror image. *)
Definition fine_long : RiskManager :=
  RM.process_entry (RM.init default_config) 1 "LONG" (100004 # 1000)
    (100003 # 1000) 101 1 "2024-01-02T09:30:00".

Definition fine_short : RiskManager :=
  RM.process_entry (RM.init default_config) 1 "SHORT" (99996 # 1000)
    (99997 # 1000) 99 1 "2024-01-02T09:30:00".

(** One session: a long entry at 21500 stopped out at 21475.25. *)
Definition stopped_out : RiskManager :=
  run_ops [OpProcessEntry 1 "LONG" 21500 21475 21550 1 "2024-01-02T09:30:00";
           OpProcessExit 1 (2147525 # 100) "Stop Loss"]
    (RM.reset_daily (RM.init default_config)).

End Demo.

(** ** Further parts of the risk manager and of the helpers *)

(** Python [round(x, 1)]. *)
Definition round1 (x : Q) : Q := Qmake (round_half_even (x * 10)) 10.

(** The dictionary returned by [RiskManager.get_status]. *)
Record Status := {
  st_daily_pnl : Q;
  st_trades_today : Z;
  st_max_trades : Z;
  st_trades_remaining : Z;
  st_is_shutdown : bool;
  st_shutdown_reason : string;
  st_max_daily_loss : Q;
  st_remaining_loss_budget : Q;
  st_open_positions : Z;
  st_loss_budget_pct : Q
}.

Module RMx.

(** [RiskManager.calculate_risk_amount]. *)
Definition calculate_risk_amount (stop_distance_points : Q) (quantity : Z)
  : Q :=
  (stop_distance_points * MNQ_POINT_VALUE * inject_Z quantity)%Q.

(** [RiskManager.get_status]. *)
Definition get_status (rm : RiskManager) : Status :=
  let max_loss := RM.max_loss rm in
  let remaining_loss_budget := (max_loss + daily_pnl rm)%Q in
  {| st_daily_pnl := round2 (daily_pnl rm);
     st_trades_today := trades_today rm;
     st_max_trades := max_trades_per_session (config rm);
     st_trades_remaining :=
       Z.max 0 (max_trades_per_session (config rm) - trades_today rm);
     st_is_shutdown := is_shutdown rm;
     st_shutdown_reason := shutdown_reason rm;
     st_max_daily_loss := round2 max_loss;
     st_remaining_loss_budget := round2 (Qmaxq 0 remaining_loss_budget);
     st_open_positions := Z.of_nat (size (open_positions rm));
     st_loss_budget_pct :=
       if Qltb 0 max_loss
       then round1 (remaining_loss_budget / max_loss * 100)
       else 0%Q |}.

(** A run of [update_trailing_stop] calls on one trade id, one per price. *)
Definition trail_prices (trade_id : Z) (prices : list Q) (rm : RiskManager)
  : RiskManager :=
  fold_left (λ rm p, snd (RM.update_trailing_stop rm trade_id p)) prices rm.

End RMx.

(** A price that is a whole number of cents. *)
Definition on_cent_grid (x : Q) : Prop := ∃ k : Z, (x == k # 100)%Q.

(** The signed price move of a position between entry and exit: up for a
    long position, down for any other. *)
Definition favourable_move (pos : Position) (exit_price : Q) : Q :=
  if is_long pos then (exit_price - entry_price pos)%Q
  else (entry_price pos - exit_price)%Q.

(** A value that is either a finite number or the [float("inf")] sentinel. *)
Inductive Ratio :=
  | Finite (q : Q)
  | Infinite.

Module Helpers.

(** [helpers.calculate_position_size].  [None] stands for the
    [ZeroDivisionError] raised when the cost per contract is zero. *)
Definition calculate_position_size (account_size risk_pct
    stop_distance_points point_value : Q) : option Z :=
  if Qleb stop_distance_points 0 || Qleb account_size 0 then Some 0
  else
    let risk_amount := (account_size * risk_pct)%Q in
    let cost_per_contract := (stop_distance_points * point_value)%Q in
    if Qeq_bool cost_per_contract 0 then None
    else Some (Z.max 0 (py_int (risk_amount / cost_per_contract))).

(** [helpers.calculate_profit_factor]; the argument is the ["pnl"] column. *)
Definition calculate_profit_factor (pnl : list Q) : Ratio :=
  if (length pnl =? 0)%nat then Finite 0
  else
    let gross_profit := Qsum (List.filter (λ x, Qltb 0 x) pnl) in
    let gross_loss := Qabs (Qsum (List.filter (λ x, Qltb x 0) pnl)) in
    if Qeq_bool gross_loss 0 then
      if Qltb 0 gross_profit then Infinite else Finite 0
    else Finite (gross_profit / gross_loss).

(** [Series.expanding(min_periods=1).max()]. *)
Fixpoint running_max (cur : Q) (l : list Q) : list Q :=
  match l with
  | [] => []
  | x :: t => Qmaxq cur x :: running_max (Qmaxq cur x) t
  end.

Definition expanding_max (l : list Q) : list Q :=
  match l with
  | [] => []
  | x :: t => x :: running_max x t
  end.

(** The column [drawdown / peak].  Where the running peak is zero the
    floating-point quotient is not a number of its own: it is a NaN when the
    drawdown is zero, and minus infinity when the drawdown is negative.
    [Series.min()] skips the NaN cells, so [pct_cells] keeps the cells with
    a non-zero peak; [has_minus_infinity] tells whether some cell is minus
    infinity. *)
Definition pct_cells (drawdown peak : list Q) : list Q :=
  map (λ c, (fst c / snd c)%Q)
    (List.filter (λ c, negb (Qeq_bool (snd c) 0)) (zip drawdown peak)).

Definition has_minus_infinity (drawdown peak : list Q) : bool :=
  existsb (λ c, Qeq_bool (snd c) 0 && Qltb (fst c) 0) (zip drawdown peak).

(** [helpers.calculate_max_drawdown].  The code always returns a pair; the
    result is [None] when the second component of that pair has no rational
    value: an infinity (some cell of [drawdown / peak] is minus infinity) or
    a NaN (every cell is a NaN, so the minimum is one). *)
Definition calculate_max_drawdown (equity_curve : list Q) : option (Q * Q) :=
  if (length equity_curve <? 2)%nat then Some (0%Q, 0%Q)
  else
    let peak := expanding_max equity_curve in
    let drawdown := zip_with Qminus equity_curve peak in
    if has_minus_infinity drawdown peak then None
    else
      match column_min drawdown, column_min (pct_cells drawdown peak) with
      | Some max_dd, Some dd_pct => Some (Qabs max_dd, Qabs dd_pct)
      | _, _ => None
      end.

(** [helpers.validate_config_ranges]. *)
Definition validate_config_ranges (c : StrategyConfig) : list string :=
  (if Qltb (2 # 100) (risk_per_trade_pct c)
   then ["⚠️ Risk per trade above 2% is extremely aggressive for futures."]
   else [])
  ++ (if Qltb (1 # 100) (risk_per_trade_pct c)
      then ["⚡ Risk per trade above 1% is above recommended levels. Consider 0.25-0.5%."]
      else [])
  ++ (if Qltb (5 # 100) (max_daily_loss_pct c)
      then ["⚠️ Max daily loss above 5% risks blowing the account. Recommended: 2%."]
      else [])
  ++ (if Qltb (reward_risk_ratio c) 1
      then ["⚡ R:R below 1.0 means you need >50% win rate to be profitable. Aim for 1.5+."]
      else [])
  ++ (if 15 <? max_trades_per_session c
      then ["⚠️ More than 15 trades/session suggests overtrading. Quality > quantity."]
      else [])
  ++ (if Qltb (stop_loss_points c) 10
      then ["⚡ Stop loss under 10 points is very tight for MNQ. Risk frequent stop-outs."]
      else [])
  ++ (if Qltb 50 (stop_loss_points c)
      then ["⚠️ Stop loss over 50 points means large dollar risk per contract."]
      else []).

End Helpers.

(** The configuration is inside the recommended ranges of
    [validate_config_ranges]. *)
Definition config_in_safe_ranges (c : StrategyConfig) : Prop :=
  (risk_per_trade_pct c <= 1 # 100)%Q
  ∧ (max_daily_loss_pct c <= 5 # 100)%Q
  ∧ (1 <= reward_risk_ratio c)%Q
  ∧ max_trades_per_session c <= 15
  ∧ (10 <= stop_loss_points c)%Q
  ∧ (stop_loss_points c <= 50)%Q.

(** ** Book-keeping of the backtest loop *)

(** The ids 1, 2, ..., n. *)
Definition ids_upto (n : Z) : list Z := map Z.of_nat (seq 1 (Z.to_nat n)).

(** Ids of the closed trades of a loop state followed by the id of the open
    one, in the order the trades were entered. *)
Definition entered_ids (st : LoopState) : list Z :=
  map (λ t, ct_id (tr_entry t)) (ls_trades st)
  ++ match current_trade st with Some ct => [ct_id ct] | None => [] end.

Definition trade_ids (l : list TradeRecord) : list Z :=
  map (λ t, ct_id (tr_entry t)) l.

(** The entry was made after the skipped opening bars, for 1 to 100
    contracts, on a long or short proposal of confidence at least one
    half. *)
Definition entry_ok (test_start : Z) (ct : CurrentTrade) : Prop :=
  test_start + 3 < ct_entry_bar ct
  ∧ 1 <= ct_quantity ct <= 100
  ∧ (1 # 2 <= ct_confidence ct)%Q
  ∧ (ct_direction ct = "LONG" ∨ ct_direction ct = "SHORT").

(** The trade was closed on a bar of the frame, no earlier than it was
    entered; [bars_held] is the distance; only the forced exit on the last
    bar can close a trade on the bar of its entry. *)
Definition trade_bars_ok (df_full : list EnrichedBar) (t : TradeRecord)
  : Prop :=
  ct_entry_bar (tr_entry t) <= tr_exit_bar t < len df_full
  ∧ tr_bars_held t = tr_exit_bar t - ct_entry_bar (tr_entry t)
  ∧ (is_session_end t = false → ct_entry_bar (tr_entry t) < tr_exit_bar t)
  ∧ (is_session_end t = true → tr_exit_bar t = len df_full - 1).

Definition trade_ok (df_full : list EnrichedBar) (test_start : Z)
    (t : TradeRecord) : Prop :=
  entry_ok test_start (tr_entry t) ∧ trade_bars_ok df_full t.


(** What holds of the loop variables while bar [i] is awaited or
    processed. *)
Definition loop_core (cfg : StrategyConfig) (df_full : list EnrichedBar)
    (test_start i : Z) (st : LoopState) : Prop :=
  book_ok st
  ∧ 0 <= trade_id_counter st
  ∧ entered_ids st = ids_upto (trade_id_counter st)
  ∧ Forall (trade_ok df_full test_start) (ls_trades st)
  ∧ match current_trade st with
    | Some ct =>
        entry_ok test_start ct ∧ ct_entry_bar ct < i ∧ i <= len df_full
        ∧ 0 < len df_full
    | None => True
    end
  ∧ (account st == account_size cfg + Qsum (map tr_pnl (ls_trades st)))%Q
  ∧ head (equity st) = Some (account_size cfg)
  ∧ ls_signals_generated st = len (entered_ids st) + ls_signals_filtered st.

(** What holds before bar [i] is processed: the last sample of the curve is
    the balance. *)
Definition loop_inv (cfg : StrategyConfig) (df_full : list EnrichedBar)
    (test_start i : Z) (st : LoopState) : Prop :=
  loop_core cfg df_full test_start i st
  ∧ last (equity st) = Some (account st).

(** What the loop's book-keeping gives for the returned object. *)
Definition result_ok (cfg : StrategyConfig) (df_full : list EnrichedBar)
    (test_start : Z) (r : BacktestResult) : Prop :=
  trade_ids (trades r) = ids_upto (len (trades r))
  ∧ Forall (trade_ok df_full test_start) (trades r)
  ∧ head (equity_curve r) = Some (account_size cfg)
  ∧ (∃ a, last (equity_curve r) = Some a
          ∧ (a == account_size cfg + Qsum (map tr_pnl (trades r)))%Q)
  ∧ signals_generated r = len (trades r) + signals_filtered r.

(** The shape of the metrics of a run that had enough data: without trades
    the note, otherwise a summary that counts every trade once, as a winner
    or as a loser, and reports the rounded last balance. *)
Definition metrics_ok (walk_forward : bool) (r : BacktestResult) : Prop :=
  match metrics r with
  | MetricsError _ => False
  | MetricsNoTrades _ w => trades r = [] ∧ w = walk_forward
  | MetricsSummary total winning losing _ _ _ final_balance w _ =>
      total = len (trades r) ∧ 0 < total
      ∧ 0 <= winning ∧ 0 <= losing ∧ winning + losing = total
      ∧ (∃ a, last (equity_curve r) = Some a ∧ final_balance = round2 a)
      ∧ w = walk_forward
  end.

(** * Properties *)

(** ** Comparisons and rounding *)

Section NumFacts.

Lemma Qleb_le x y : Qleb x y = true ↔ (x <= y)%Q.
Proof. apply Qle_bool_iff. Qed.

Lemma Qltb_lt x y : Qltb x y = true ↔ (x < y)%Q.
Proof.
  unfold Qltb. rewrite negb_true_iff. split.
  - intros H. apply Qnot_le_lt. intros Hle.
    apply Qle_bool_iff in Hle. congruence.
  - intros H. destruct (Qle_bool y x) eqn:E; [|done].
    apply Qle_bool_iff in E. exfalso. eapply Qlt_not_le; eauto.
Qed.

Lemma Qleb_gt x y : Qleb x y = false ↔ (y < x)%Q.
Proof.
  rewrite <- Qltb_lt. unfold Qltb, Qleb. destruct (Qle_bool x y); naive_solver.
Qed.

Lemma Qltb_ge x y : Qltb x y = false ↔ (y <= x)%Q.
Proof.
  rewrite <- Qleb_le. unfold Qltb, Qleb. destruct (Qle_bool y x); naive_solver.
Qed.

Lemma round_half_even_error x :
  (Qabs (inject_Z (round_half_even x) - x) <= 1 # 2)%Q.
Proof.
  unfold round_half_even.
  pose proof (Qfloor_le x) as Hlo. pose proof (Qlt_floor x) as Hhi.
  rewrite inject_Z_plus in Hhi.
  change (inject_Z 1) with 1%Q in Hhi.
  set (f := Qfloor x) in *.
  apply Qabs_Qle_condition.
  destruct (Qltb (x - inject_Z f) (1 # 2)) eqn:E1.
  { apply Qltb_lt in E1. split; lra. }
  apply Qltb_ge in E1.
  destruct (Qltb (1 # 2) (x - inject_Z f)) eqn:E2.
  { rewrite inject_Z_plus. change (inject_Z 1) with 1%Q. split; lra. }
  apply Qltb_ge in E2.
  destruct (Z.even f).
  - split; lra.
  - rewrite inject_Z_plus. change (inject_Z 1) with 1%Q. split; lra.
Qed.

Lemma Qmake_100 z : (z # 100 == inject_Z z * (1 # 100))%Q.
Proof. unfold Qeq, inject_Z, Qmult; simpl. lia. Qed.

Lemma round2_error x : (Qabs (round2 x - x) <= 1 # 200)%Q.
Proof.
  unfold round2. rewrite Qmake_100.
  pose proof (round_half_even_error (x * 100)) as H.
  apply Qabs_Qle_condition in H. apply Qabs_Qle_condition.
  split; lra.
Qed.

Lemma Qsum_app l1 l2 : (Qsum (l1 ++ l2) == Qsum l1 + Qsum l2)%Q.
Proof.
  induction l1 as [|x l1 IH]; simpl.
  - lra.
  - rewrite IH. lra.
Qed.

End NumFacts.

(** ** Risk manager: frame and entry *)

(** C10. [reset_daily] writes [daily_pnl], [trades_today], [is_shutdown] and
    [shutdown_reason] and nothing else: the configuration, the map of open
    positions and the trade ledger are the same objects afterwards, so every
    open position is found again with all of its fields. *)
Theorem reset_daily_frame (rm : RiskManager) :
  config (RM.reset_daily rm) = config rm
  ∧ open_positions (RM.reset_daily rm) = open_positions rm
  ∧ trade_log (RM.reset_daily rm) = trade_log rm
  ∧ (∀ (id : Z) (p : Position),
        open_positions rm !! id = Some p →
        open_positions (RM.reset_daily rm) !! id = Some p)
  ∧ daily_pnl (RM.reset_daily rm) = 0%Q
  ∧ trades_today (RM.reset_daily rm) = 0
  ∧ is_shutdown (RM.reset_daily rm) = false
  ∧ shutdown_reason (RM.reset_daily rm) = "".
Proof. unfold RM.reset_daily; simpl. repeat split; auto. Qed.

(** C9, refuted as stated: with a position open under id 1, registering id 2
    adds a second position and counts one more trade. *)
Lemma process_entry_while_open_registers :
  size (open_positions Demo.one_long) = 1%nat
  ∧ size (open_positions
            (RM.process_entry Demo.one_long 2 "SHORT" 21500 21525 21450 1
               "2024-01-02T09:35:00")) = 2%nat
  ∧ trades_today Demo.one_long = 1
  ∧ trades_today
      (RM.process_entry Demo.one_long 2 "SHORT" 21500 21525 21450 1
         "2024-01-02T09:35:00") = 2.
Proof. vm_compute. repeat split; reflexivity. Qed.

(** C9, as the code has it: [process_entry] has no guard.  Whatever is open,
    it stores the new position under the given id (replacing a position
    already stored under that id), keeps every other id, and adds one to
    [trades_today]; the remaining fields are untouched. *)
Theorem process_entry_unconditional (rm : RiskManager) (id : Z) (dir : string)
    (entry stop target : Q) (qty : Z) (now : string) :
  let rm' := RM.process_entry rm id dir entry stop target qty now in
  open_positions rm' !! id =
    Some {| direction := dir; entry_price := entry; stop_loss := stop;
            take_profit := target; quantity := qty; highest_price := entry;
            lowest_price := entry; entry_time := now |}
  ∧ (∀ j : Z, j ≠ id → open_positions rm' !! j = open_positions rm !! j)
  ∧ size (open_positions rm') =
      (if decide (is_Some (open_positions rm !! id))
       then size (open_positions rm) else S (size (open_positions rm)))
  ∧ trades_today rm' = trades_today rm + 1
  ∧ daily_pnl rm' = daily_pnl rm
  ∧ is_shutdown rm' = is_shutdown rm
  ∧ shutdown_reason rm' = shutdown_reason rm
  ∧ trade_log rm' = trade_log rm
  ∧ config rm' = config rm.
Proof.
  simpl. split; [apply lookup_insert_eq|].
  split; [intros j Hj; by apply lookup_insert_ne|].
  split; [|repeat split].
  case_decide as H.
  - destruct H as [p Hp]. rewrite <- (insert_delete_id _ _ _ Hp) at 1.
    rewrite insert_insert_eq.
    rewrite map_size_insert_None by apply lookup_delete_eq.
    rewrite <- (insert_delete_id _ _ _ Hp) at 2.
    by rewrite map_size_insert_None by apply lookup_delete_eq.
  - apply map_size_insert_None. by apply eq_None_not_Some.
Qed.

(** ** Risk manager: exit conditions *)

(** C3. When one bar reaches both the stop and the target of an open
    position, [check_exit_conditions] answers with the stop price and the
    reason ["Stop Loss"], and leaves the manager as it was: for a long
    position when [low <= stop] and [high >= target], for a short position
    when [high >= stop] and [low <= target]. *)
Theorem check_exit_stop_wins (rm : RiskManager) (id : Z) (pos : Position)
    (bar_high bar_low bar_close : Q)
    (Hopen : open_positions rm !! id = Some pos)
    (Hspan : (direction pos = "LONG"
              ∧ (bar_low <= stop_loss pos)%Q ∧ (take_profit pos <= bar_high)%Q)
             ∨ (direction pos = "SHORT"
                ∧ (stop_loss pos <= bar_high)%Q
                ∧ (bar_low <= take_profit pos)%Q)) :
  RM.check_exit_conditions rm id bar_high bar_low bar_close
  = (Some (stop_loss pos, "Stop Loss"), rm).
Proof.
  unfold RM.check_exit_conditions. rewrite Hopen. unfold is_long.
  destruct Hspan as [(Hd & Hs & _) | (Hd & Hs & _)]; rewrite Hd; simpl;
    apply Qleb_le in Hs; by rewrite Hs.
Qed.

Lemma check_exit_stop_wins_witness :
  RM.check_exit_conditions Demo.one_long 1 21555 21470 21480
    = (Some (21475%Q, "Stop Loss"), Demo.one_long)
  ∧ RM.check_exit_conditions Demo.one_short 7 21530 21440 21500
    = (Some (21525%Q, "Stop Loss"), Demo.one_short).
Proof.
  split.
  - apply (check_exit_stop_wins Demo.one_long 1
             {| direction := "LONG"; entry_price := 21500;
                stop_loss := 21475; take_profit := 21550; quantity := 1;
                highest_price := 21500; lowest_price := 21500;
                entry_time := "2024-01-02T09:30:00" |}).
    + reflexivity.
    + left. simpl. repeat split; try reflexivity; vm_compute; discriminate.
  - apply (check_exit_stop_wins Demo.one_short 7
             {| direction := "SHORT"; entry_price := 21500;
                stop_loss := 21525; take_profit := 21450; quantity := 2;
                highest_price := 21500; lowest_price := 21500;
                entry_time := "2024-01-02T09:30:00" |}).
    + reflexivity.
    + right. simpl. repeat split; try reflexivity; vm_compute; discriminate.
Defined.

(** ** Risk manager: trailing stop *)

(** C2, evaluated on the code.  The comparison [new_stop > current_stop] is
    made on the unrounded candidate, the stored value is the candidate
    rounded to cents.  A long stop of 100.003 is replaced by 100.00, a short
    stop of 99.997 by 100.00: both moves go against the holder. *)
Theorem trailing_stop_rounds_past_old_stop :
  (stop_loss <$> open_positions Demo.fine_long !! 1 = Some (100003 # 1000)
   ∧ RM.update_trailing_stop Demo.fine_long 1 (1000052 # 10000)
     = (Some (10000 # 100),
        RM.set_open_positions
          {[ 1 := {| direction := "LONG"; entry_price := 100004 # 1000;
                     stop_loss := 10000 # 100; take_profit := 101;
                     quantity := 1; highest_price := 1000052 # 10000;
                     lowest_price := 100004 # 1000;
                     entry_time := "2024-01-02T09:30:00" |} ]}
          Demo.fine_long)
   ∧ (10000 # 100 < 100003 # 1000)%Q)
  ∧ (stop_loss <$> open_positions Demo.fine_short !! 1 = Some (99997 # 1000)
     ∧ RM.update_trailing_stop Demo.fine_short 1 (999948 # 10000)
       = (Some (10000 # 100),
          RM.set_open_positions
            {[ 1 := {| direction := "SHORT"; entry_price := 99996 # 1000;
                       stop_loss := 10000 # 100; take_profit := 99;
                       quantity := 1; highest_price := 99996 # 1000;
                       lowest_price := 999948 # 10000;
                       entry_time := "2024-01-02T09:30:00" |} ]}
            Demo.fine_short)
     ∧ (99997 # 1000 < 10000 # 100)%Q).
Proof. repeat split; vm_compute; reflexivity. Qed.

(** How far the slip can go: a long stop is never lowered by more than half
    a cent. *)
Lemma trailing_stop_long_drop_bounded (rm : RiskManager) (id : Z)
    (pos : Position) (price : Q) :
  open_positions rm !! id = Some pos →
  is_long pos = true →
  ∃ pos', open_positions (snd (RM.update_trailing_stop rm id price)) !! id
          = Some pos'
          ∧ (stop_loss pos - (1 # 200) <= stop_loss pos')%Q.
Proof.
  intros Hopen Hlong. unfold RM.update_trailing_stop. rewrite Hopen, Hlong.
  set (pos1 := if Qltb (highest_price pos) price
               then set_highest_price price pos else pos).
  assert (Hs1 : stop_loss pos1 = stop_loss pos)
    by (unfold pos1; destruct (Qltb _ _); reflexivity).
  destruct (Qleb (price - entry_price pos) 0).
  { exists pos1. simpl. rewrite lookup_insert_eq, Hs1. split; [done|lra]. }
  destruct (Qltb (stop_loss pos) _) eqn:E.
  - eexists. simpl. rewrite lookup_insert_eq. split; [done|]. simpl.
    apply Qltb_lt in E.
    match goal with |- (_ <= round2 ?x)%Q =>
      pose proof (round2_error x) as Hr end.
    apply Qabs_Qle_condition in Hr. lra.
  - exists pos1. simpl. rewrite lookup_insert_eq, Hs1. split; [done|lra].
Qed.

(** ** Risk manager: daily accounting *)

(** C4, refuted as stated: after one stopped-out trade the running total is
    -93.6905 while the ledger holds -93.69. *)
Lemma daily_pnl_differs_from_ledger_sum :
  (daily_pnl Demo.stopped_out == - (936905 # 10000))%Q
  ∧ map x_net_pnl (ledger_since 0 Demo.stopped_out) = [(-9369 # 100)%Q]
  ∧ ¬ (daily_pnl Demo.stopped_out
       == Qsum (map x_net_pnl (ledger_since 0 Demo.stopped_out)))%Q.
Proof.
  split; [|split].
  - vm_compute. reflexivity.
  - vm_compute. reflexivity.
  - vm_compute. discriminate.
Qed.

Section Accounting.

Variable cfg : StrategyConfig.

(** What one call other than [reset_daily] does to the books: the
    configuration stays, the ledger grows at its end, and the running total
    grows by the unrounded results of the records added. *)
Lemma apply_op_books (rm : RiskManager) (o : Op) :
  is_reset o = false →
  config rm = cfg →
  config (apply_op rm o) = cfg
  ∧ ∃ added : list ExitRecord,
      trade_log (apply_op rm o) = trade_log rm ++ added
      ∧ (daily_pnl (apply_op rm o)
         == daily_pnl rm + Qsum (map (exact_net_pnl cfg) added))%Q
      ∧ Forall (λ r, x_net_pnl r = round2 (exact_net_pnl cfg r)) added.
Proof.
  intros Hr Hc.
  assert (Hnil : ∀ rm', config rm' = cfg → trade_log rm' = trade_log rm →
                        daily_pnl rm' = daily_pnl rm →
            config rm' = cfg
            ∧ ∃ added, trade_log rm' = trade_log rm ++ added
                ∧ (daily_pnl rm' == daily_pnl rm
                                    + Qsum (map (exact_net_pnl cfg) added))%Q
                ∧ Forall (λ r, x_net_pnl r = round2 (exact_net_pnl cfg r))
                    added).
  { intros rm' H1 H2 H3. split; [done|]. exists []. rewrite app_nil_r, H3.
    simpl. split; [done|]. split; [lra|constructor]. }
  destruct o; simpl in *; try discriminate.
  - apply Hnil; unfold RM.can_trade; repeat case_match; done.
  - by apply Hnil.
  - by apply Hnil.
  - unfold RM.process_exit. destruct (open_positions rm !! trade_id) as [pos|];
      [|by apply Hnil].
    unfold is_long. subst cfg.
    destruct (String.eqb (direction pos) "LONG") eqn:E; simpl;
      (split; [done|]); eexists [_]; (split; [reflexivity|]);
      unfold exact_net_pnl; simpl; rewrite E;
      (split; [lra|]);
      (constructor; [unfold exact_net_pnl; simpl; by rewrite E | constructor]).
  - unfold RM.update_trailing_stop.
    destruct (open_positions rm !! trade_id) as [pos|]; [|by apply Hnil].
    apply Hnil; repeat case_match; done.
  - unfold RM.check_exit_conditions, RM.update_trailing_stop.
    destruct (open_positions rm !! trade_id) as [pos|]; [|by apply Hnil].
    apply Hnil; repeat case_match; done.
Qed.

Lemma run_ops_books (ops : list Op) (rm : RiskManager) :
  no_reset ops = true →
  config rm = cfg →
  ∃ added : list ExitRecord,
    trade_log (run_ops ops rm) = trade_log rm ++ added
    ∧ (daily_pnl (run_ops ops rm)
       == daily_pnl rm + Qsum (map (exact_net_pnl cfg) added))%Q
    ∧ Forall (λ r, x_net_pnl r = round2 (exact_net_pnl cfg r)) added.
Proof.
  revert rm. induction ops as [|o ops IH]; intros rm Hn Hc; simpl in *.
  - exists []. rewrite app_nil_r. simpl. split; [done|]. split; [lra|constructor].
  - apply andb_true_iff in Hn as [Ho Hn]. apply negb_true_iff in Ho.
    destruct (apply_op_books rm o Ho Hc) as (Hc' & a1 & Hl1 & Hp1 & Hf1).
    destruct (IH _ Hn Hc') as (a2 & Hl2 & Hp2 & Hf2).
    exists (a1 ++ a2). unfold run_ops in *.
    rewrite Hl2, Hl1, <- app_assoc. split; [done|].
    split; [|by apply Forall_app].
    rewrite Hp2, Hp1, map_app, Qsum_app. lra.
Qed.

Lemma rounded_sum_error (l : list ExitRecord) :
  Forall (λ r, x_net_pnl r = round2 (exact_net_pnl cfg r)) l →
  (Qabs (Qsum (map (exact_net_pnl cfg) l) - Qsum (map x_net_pnl l))
   <= (1 # 200) * inject_Z (len l))%Q.
Proof.
  induction 1 as [|r l Hr _ IH]; unfold len in *; simpl length.
  - vm_compute. discriminate.
  - rewrite Nat2Z.inj_succ, <- Z.add_1_r, inject_Z_plus. simpl map. simpl Qsum.
    change (inject_Z 1) with 1%Q. rewrite Hr.
    pose proof (round2_error (exact_net_pnl cfg r)) as He.
    apply Qabs_Qle_condition in He, IH. apply Qabs_Qle_condition.
    split; lra.
Qed.

End Accounting.

(** C4, as the code has it.  Take any manager, call [reset_daily], then any
    calls other than [reset_daily].  For the records appended to the ledger
    since the reset: [daily_pnl] is the sum of their unrounded net results
    (gross minus commission, as rebuilt from the record); the [net_pnl]
    stored in each record is that result rounded to cents; hence [daily_pnl]
    and the sum of the stored [net_pnl] differ by at most half a cent per
    record. *)
Theorem daily_pnl_is_unrounded_ledger_sum (rm : RiskManager) (ops : list Op) :
  no_reset ops = true →
  let rm' := run_ops ops (RM.reset_daily rm) in
  let session := ledger_since (length (trade_log rm)) rm' in
  (daily_pnl rm' == Qsum (map (exact_net_pnl (config rm)) session))%Q
  ∧ Forall (λ r, x_net_pnl r = round2 (exact_net_pnl (config rm) r)) session
  ∧ (Qabs (daily_pnl rm' - Qsum (map x_net_pnl session))
     <= (1 # 200) * inject_Z (len session))%Q.
Proof.
  intros Hn rm' session.
  destruct (run_ops_books (config rm) ops (RM.reset_daily rm) Hn eq_refl)
    as (added & Hl & Hp & Hf).
  assert (Hs : session = added).
  { unfold session, ledger_since, rm'. rewrite Hl. simpl.
    by rewrite drop_app_length. }
  rewrite Hs. fold rm' in Hp. simpl in Hp.
  assert (Hp' : (daily_pnl rm'
                 == Qsum (map (exact_net_pnl (config rm)) added))%Q)
    by (rewrite Hp; lra).
  split; [done|]. split; [done|].
  rewrite Hp'. by apply rounded_sum_error.
Qed.

Lemma daily_pnl_is_unrounded_ledger_sum_witness :
  (daily_pnl Demo.stopped_out == - (936905 # 10000))%Q
  ∧ (Qabs (daily_pnl Demo.stopped_out
           - Qsum (map x_net_pnl (ledger_since 0 Demo.stopped_out)))
     <= (1 # 200) * inject_Z (len (ledger_since 0 Demo.stopped_out)))%Q.
Proof.
  pose proof (daily_pnl_is_unrounded_ledger_sum (RM.init default_config)
    [OpProcessEntry 1 "LONG" 21500 21475 21550 1 "2024-01-02T09:30:00";
     OpProcessExit 1 (2147525 # 100) "Stop Loss"] eq_refl) as (H1 & _ & H3).
  split.
  - vm_compute. reflexivity.
  - exact H3.
Defined.

(** ** Risk manager: daily-loss shutdown *)

Lemma prefix_app (s t : string) : String.prefix s (s ++ t) = true.
Proof.
  induction s as [|a s IH]; simpl.
  - by destruct t.
  - destruct (Ascii.ascii_dec a a); [exact IH|done].
Qed.

Lemma apply_op_keeps_shutdown (rm : RiskManager) (o : Op) :
  is_reset o = false →
  is_shutdown rm = true →
  is_shutdown (apply_op rm o) = true.
Proof.
  intros Hr Hs. destruct o; simpl in *; try done.
  - unfold RM.can_trade. by rewrite Hs.
  - unfold RM.process_exit. destruct (open_positions rm !! trade_id); [|done].
    simpl. rewrite Hs. by case_match.
  - unfold RM.update_trailing_stop.
    destruct (open_positions rm !! trade_id); [|done]. by repeat case_match.
  - unfold RM.check_exit_conditions, RM.update_trailing_stop.
    destruct (open_positions rm !! trade_id); [|done]. by repeat case_match.
Qed.

Lemma apply_op_keeps_config (rm : RiskManager) (o : Op) :
  config (apply_op rm o) = config rm.
Proof.
  destruct o; simpl; try done.
  - unfold RM.can_trade. by repeat case_match.
  - unfold RM.process_exit. by destruct (open_positions rm !! trade_id).
  - unfold RM.update_trailing_stop.
    destruct (open_positions rm !! trade_id); [|done]. by repeat case_match.
  - unfold RM.check_exit_conditions, RM.update_trailing_stop.
    destruct (open_positions rm !! trade_id); [|done]. by repeat case_match.
Qed.

Lemma run_ops_keeps_shutdown (ops : list Op) (rm : RiskManager) :
  no_reset ops = true →
  is_shutdown rm = true →
  is_shutdown (run_ops ops rm) = true.
Proof.
  revert rm. induction ops as [|o ops IH]; intros rm Hn Hs; [done|].
  simpl in *. apply andb_true_iff in Hn as [Ho Hn]. apply negb_true_iff in Ho.
  apply IH; [done|]. by apply apply_op_keeps_shutdown.
Qed.

(** What [can_trade] answers right after [reset_daily]. *)
Lemma can_trade_after_reset (rm : RiskManager) :
  fst (fst (RM.can_trade (RM.reset_daily rm))) = true
  ↔ (0 < RM.max_loss rm)%Q
    ∧ 0 < max_trades_per_session (config rm)
    ∧ open_positions rm = ∅.
Proof.
  unfold RM.can_trade, RM.reset_daily; simpl.
  change (RM.max_loss _) with (RM.max_loss rm).
  destruct (Qleb 0 (- RM.max_loss rm)) eqn:E1; simpl.
  { apply Qleb_le in E1. split; [done|]. intros [H _]. lra. }
  apply Qleb_gt in E1.
  destruct (0 >=? max_trades_per_session (config rm)) eqn:E2; simpl.
  { split; [done|]. lia. }
  destruct (0 <? size (open_positions rm))%nat eqn:E3; simpl.
  - apply Nat.ltb_lt in E3. split; [done|]. intros (_ & _ & He).
    rewrite He, map_size_empty in E3. lia.
  - apply Nat.ltb_ge in E3. split; [|done]. intros _.
    split; [lra|]. split; [lia|]. apply map_size_empty_iff. lia.
Qed.

(** C5, refuted as stated: a manager built with [max_daily_loss_pct = 0]
    starts with [daily_pnl = 0], which is at the loss limit.  A winning
    trade entered and closed before any [can_trade] call lifts [daily_pnl]
    to 1796.76 without the shutdown flag ever being set, and [can_trade]
    then allows trading although [reset_daily] was never called. *)
Lemma over_limit_state_trades_again :
  let rm := RM.init Demo.no_loss_budget in
  let calls := [OpProcessEntry 1 "LONG" 100 90 1000 1 "2024-01-02T09:30:00";
                OpProcessExit 1 1000 "Take Profit"] in
  (daily_pnl rm <= - (account_size (config rm)
                      * max_daily_loss_pct (config rm)))%Q
  ∧ no_reset calls = true
  ∧ (daily_pnl (run_ops calls rm) == 179676 # 100)%Q
  ∧ is_shutdown (run_ops calls rm) = false
  ∧ fst (RM.can_trade (run_ops calls rm)) = (true, "OK").
Proof.
  split; [by vm_compute|]. split; [by vm_compute|].
  split; [by vm_compute|]. split; by vm_compute.
Qed.

(** C5, as the code has it.  The shutdown is latched by the call that sees
    the limit, not by the state.  In a state whose [daily_pnl] is at or
    below minus the daily loss limit, a [can_trade] call made in that state
    refuses and names a shutdown reason, and leaves the shutdown flag set.
    After any further calls that do not include [reset_daily] (further
    [can_trade] calls among them) the flag is still set and [can_trade]
    refuses again with the halted message.  After a [reset_daily],
    [can_trade] allows trading exactly when the loss limit is positive, the
    trade cap is positive and no position is open. *)
Theorem shutdown_latched_until_reset (rm : RiskManager) (ops : list Op) :
  (daily_pnl rm <= - RM.max_loss rm)%Q →
  no_reset ops = true →
  let first := RM.can_trade rm in
  let rm' := run_ops ops (snd first) in
  fst (fst first) = false
  ∧ is_shutdown_message (snd (fst first)) = true
  ∧ is_shutdown (snd first) = true
  ∧ is_shutdown rm' = true
  ∧ fst (RM.can_trade rm')
    = (false, ("Trading halted: " ++ shutdown_reason rm')%string)
  ∧ is_shutdown_message (snd (fst (RM.can_trade rm'))) = true
  ∧ (fst (fst (RM.can_trade (RM.reset_daily rm'))) = true
     ↔ (0 < RM.max_loss rm')%Q
       ∧ 0 < max_trades_per_session (config rm')
       ∧ open_positions rm' = ∅).
Proof.
  intros Hloss Hn first rm'.
  assert (H1 : fst (fst first) = false
               ∧ is_shutdown_message (snd (fst first)) = true
               ∧ is_shutdown (snd first) = true).
  { unfold first, RM.can_trade.
    destruct (is_shutdown rm) eqn:Hs; simpl.
    - split; [done|]. split; [|done]. unfold is_shutdown_message.
      by rewrite prefix_app.
    - apply Qleb_le in Hloss. rewrite Hloss. simpl. split; [done|].
      split; [|done]. unfold is_shutdown_message.
      change ("Max daily loss reached ($" ++ fmt_2f (RM.max_loss rm) ++ ")")%string
        with ("Max daily loss reached"
                ++ (" ($" ++ fmt_2f (RM.max_loss rm) ++ ")"))%string.
      rewrite prefix_app. apply orb_true_r. }
  destruct H1 as (Ha & Hb & Hc).
  assert (Hs' : is_shutdown rm' = true) by by apply run_ops_keeps_shutdown.
  assert (Hct : fst (RM.can_trade rm')
                = (false, ("Trading halted: " ++ shutdown_reason rm')%string))
    by (unfold RM.can_trade; by rewrite Hs').
  split; [exact Ha|]. split; [exact Hb|]. split; [exact Hc|].
  split; [exact Hs'|]. split; [exact Hct|]. split.
  - rewrite Hct. simpl. unfold is_shutdown_message. by rewrite prefix_app.
  - apply can_trade_after_reset.
Qed.

Lemma shutdown_latched_until_reset_witness :
  let rm := snd (RM.process_exit
                   (RM.process_entry (RM.init default_config) 1 "LONG" 21500
                      21000 22000 1 "2024-01-02T09:30:00")
                   1 21000 "Stop Loss") in
  let later := [OpProcessEntry 2 "LONG" 21000 20990 21020 1
                  "2024-01-02T10:00:00";
                OpCanTrade;
                OpProcessExit 2 21020 "Take Profit"] in
  fst (fst (RM.can_trade rm)) = false
  ∧ fst (fst (RM.can_trade (run_ops later (snd (RM.can_trade rm))))) = false
  ∧ fst (fst (RM.can_trade
                (RM.reset_daily
                   (run_ops later (snd (RM.can_trade rm)))))) = true.
Proof.
  intros rm later.
  assert (Hloss : (daily_pnl rm <= - RM.max_loss rm)%Q)
    by (vm_compute; discriminate).
  pose proof (shutdown_latched_until_reset rm later Hloss eq_refl)
    as (H1 & _ & _ & _ & H5 & _ & H7).
  split; [exact H1|]. split; [by rewrite H5|].
  apply H7. vm_compute. repeat split; reflexivity.
Defined.

(** ** Trade statistics *)

Section AvgRR.

Lemma filter_pred (f : Q → bool) (l : list Q) :
  Forall (λ x, f x = true) (List.filter f l).
Proof.
  induction l as [|a l IH]; simpl; [constructor|].
  destruct (f a) eqn:E; [by constructor|done].
Qed.

Lemma Qsum_negative (l : list Q) :
  Forall (λ x, (x < 0)%Q) l → l ≠ [] → (Qsum l < 0)%Q.
Proof.
  induction 1 as [|x l Hx Hl IH]; [done|]. intros _. simpl.
  destruct l as [|y l]; simpl in *; [lra|].
  assert (y + Qsum l < 0)%Q by by apply IH. lra.
Qed.

Lemma Qsum_abs_negative (l : list Q) :
  Forall (λ x, (x < 0)%Q) l → (Qsum (map Qabs l) == - Qsum l)%Q.
Proof.
  induction 1 as [|x l Hx Hl IH]; simpl; [lra|].
  rewrite IH, (Qabs_neg x) by lra. lra.
Qed.

Lemma count_positive (l : list Q) :
  l ≠ [] → (0 < inject_Z (Z.of_nat (length l)))%Q.
Proof.
  intros H. destruct l; [done|]. simpl length.
  rewrite <- (Zlt_Qlt 0). lia.
Qed.

Lemma mean_negative (l : list Q) :
  Forall (λ x, (x < 0)%Q) l → l ≠ [] → (mean l < 0)%Q.
Proof.
  intros Hl Hne. unfold mean.
  apply Qlt_shift_div_r; [by apply count_positive|].
  pose proof (Qsum_negative l Hl Hne). lra.
Qed.

Lemma mean_abs_negative (l : list Q) :
  Forall (λ x, (x < 0)%Q) l → (mean (map Qabs l) == - mean l)%Q.
Proof.
  intros Hl. unfold mean. rewrite length_map, (Qsum_abs_negative l Hl).
  unfold Qdiv. ring.
Qed.

End AvgRR.

(** C8, refuted as stated: a ledger with one winning trade and no losing
    trade has ratio 100, not 0. *)
Lemma avg_rr_without_losers_is_mean_win :
  calculate_avg_rr [100%Q] = 100%Q
  ∧ avg_rr_as_claimed [100%Q] = 0%Q
  ∧ ¬ (calculate_avg_rr [100%Q] == 0)%Q.
Proof.
  split; [|split].
  - vm_compute. reflexivity.
  - reflexivity.
  - vm_compute. discriminate.
Qed.

(** C8, as the code has it.  With winners [W] (P&L > 0) and losers [L]
    (P&L < 0) of the ledger: when there are losers the result is the mean of
    [W] (0 when [W] is empty) divided by the mean absolute value of [L];
    when there is no loser the result is the mean of [W], and 0 only when
    there is no winner either.  For [+100, -50, +150, -50] it is 2.5. *)
Theorem calculate_avg_rr_cases (pnl : list Q) :
  let W := List.filter (λ x, Qltb 0 x) pnl in
  let L := List.filter (λ x, Qltb x 0) pnl in
  (calculate_avg_rr pnl ==
     match L, W with
     | [], [] => 0
     | [], _ :: _ => mean W
     | _ :: _, [] => 0
     | _ :: _, _ :: _ => mean W / mean (map Qabs L)
     end)%Q
  ∧ (calculate_avg_rr [100; -50; 150; -50] == 5 # 2)%Q.
Proof.
  intros W L. split; [|by vm_compute].
  unfold calculate_avg_rr. fold W. fold L.
  destruct pnl as [|p pnl]; [reflexivity|]. simpl length at 1.
  change (S (length pnl) =? 0)%nat with false. cbv iota.
  assert (HL : Forall (λ x, (x < 0)%Q) L).
  { eapply Forall_impl; [apply filter_pred|]. intros x Hx. by apply Qltb_lt. }
  clearbody W L. destruct L as [|l L'].
  { simpl. destruct W; reflexivity. }
  set (L := l :: L') in *.
  assert (Hne : L ≠ []) by done.
  pose proof (mean_negative L HL Hne) as Hm.
  pose proof (mean_abs_negative L HL) as Ha.
  change (length L =? 0)%nat with false. cbv iota. simpl orb.
  assert (Hz : Qeq_bool (mean L) 0 = false).
  { destruct (Qeq_bool (mean L) 0) eqn:E; [|done].
    apply Qeq_bool_iff in E. lra. }
  rewrite Hz.
  assert (Hab : (Qabs (mean L) == mean (map Qabs L))%Q).
  { rewrite Ha. apply Qabs_neg. lra. }
  assert (Hpos : Qltb 0 (Qabs (mean L)) = true).
  { apply Qltb_lt. rewrite Hab, Ha. lra. }
  rewrite Hpos.
  destruct W as [|w W'].
  - change (0 <? length (@nil Q))%nat with false. cbv iota.
    unfold Qdiv. ring.
  - change (0 <? length (w :: W'))%nat with true. cbv iota.
    by rewrite Hab.
Qed.

(** ** Backtest: the position map along the loop *)

Section PositionMap.

Lemma can_trade_positions (rm : RiskManager) :
  open_positions (snd (RM.can_trade rm)) = open_positions rm.
Proof. unfold RM.can_trade. by repeat case_match. Qed.

Lemma update_trailing_stop_singleton (rm : RiskManager) (id : Z)
    (p : Position) (price : Q) :
  open_positions rm = {[id := p]} →
  ∃ p', open_positions (snd (RM.update_trailing_stop rm id price))
        = {[id := p']}.
Proof.
  intros H. unfold RM.update_trailing_stop.
  rewrite H, lookup_singleton_eq.
  repeat case_match; simpl; rewrite insert_singleton_eq; eauto.
Qed.

Lemma check_exit_singleton (rm : RiskManager) (id : Z) (p : Position)
    (h l c : Q) :
  open_positions rm = {[id := p]} →
  (∃ p', open_positions (snd (RM.check_exit_conditions rm id h l c))
         = {[id := p']})
  ∧ ∀ price reason,
      fst (RM.check_exit_conditions rm id h l c) = Some (price, reason) →
      reason = "Stop Loss" ∨ reason = "Take Profit".
Proof.
  intros H. unfold RM.check_exit_conditions.
  rewrite H, lookup_singleton_eq.
  pose proof (update_trailing_stop_singleton rm id p c H) as Hu.
  repeat case_match; simpl; (split; [by eauto|]); intros ?? [=]; subst; auto.
Qed.

Lemma process_exit_singleton (rm : RiskManager) (id : Z) (p : Position)
    (price : Q) (reason : string) :
  open_positions rm = {[id := p]} →
  ∃ r, fst (RM.process_exit rm id price reason) = ExitDone r
       ∧ open_positions (snd (RM.process_exit rm id price reason)) = ∅.
Proof.
  intros H. unfold RM.process_exit. rewrite H, lookup_singleton_eq. simpl.
  eexists. split; [reflexivity|]. apply delete_singleton_eq.
Qed.

Lemma book_ok_size (st : LoopState) :
  book_ok st → (size (open_positions (risk_mgr st)) ≤ 1)%nat.
Proof.
  unfold book_ok. destruct (current_trade st).
  - intros [p ->]. by rewrite map_size_singleton.
  - intros ->. rewrite map_size_empty. lia.
Qed.

Lemma session_end_count_snoc (l : list TradeRecord) (t : TradeRecord) :
  session_end_count (l ++ [t])
  = (session_end_count l + (if is_session_end t then 1 else 0))%nat.
Proof.
  unfold session_end_count. rewrite List.filter_app, length_app. simpl.
  by destruct (is_session_end t).
Qed.

End PositionMap.

Section LoopFacts.

Variable generate_signal_hybrid1 :
  list EnrichedBar → StrategyConfig → Z → option TradeSignal.
Variable generate_signal_hybrid2 :
  list EnrichedBar → StrategyConfig → option Q → option Q → Z
  → option TradeSignal.
Variable clock : Z → string.
Variable cfg : StrategyConfig.
Variable df_full : list EnrichedBar.
Variable test_start : Z.

Local Abbreviation entry := (phase_entry generate_signal_hybrid1
  generate_signal_hybrid2 clock cfg df_full test_start).
Local Abbreviation step := (bar_step generate_signal_hybrid1
  generate_signal_hybrid2 clock cfg df_full test_start).
Local Abbreviation loop := (run_loop generate_signal_hybrid1
  generate_signal_hybrid2 clock cfg df_full test_start).

Lemma phase_session_ok (i : Z) (st : LoopState) :
  book_ok st →
  book_ok (phase_session df_full i st)
  ∧ equity (phase_session df_full i st) = equity st
  ∧ ls_trades (phase_session df_full i st) = ls_trades st.
Proof.
  intros H. unfold phase_session. by destruct (i mod 78 =? 0).
Qed.

Lemma phase_exit_ok (i : Z) (row : EnrichedBar) (st : LoopState) :
  book_ok st →
  ∃ st', phase_exit i row st = Ok st'
         ∧ book_ok st'
         ∧ equity st' = equity st
         ∧ session_end_count (ls_trades st')
           = session_end_count (ls_trades st).
Proof.
  unfold book_ok, phase_exit. destruct (current_trade st) as [ct|] eqn:Ect.
  2:{ intros H. exists st. by rewrite Ect. }
  intros [p Hp].
  destruct (check_exit_singleton (risk_mgr st) (ct_id ct) p
              (high (bar row)) (low (bar row)) (close (bar row)) Hp)
    as [[p' Hp'] Hreason].
  destruct (RM.check_exit_conditions _ _ _ _ _) as [[[price reason]|] rm1];
    simpl in *.
  - destruct (process_exit_singleton rm1 (ct_id ct) p' price reason Hp')
      as (r & Hr & He).
    destruct (RM.process_exit rm1 (ct_id ct) price reason) as [info rm2].
    simpl in *. subst info. eexists. split; [reflexivity|]. simpl.
    split; [done|]. split; [done|].
    rewrite session_end_count_snoc. unfold is_session_end. simpl.
    destruct (Hreason price reason eq_refl) as [-> | ->]; simpl; lia.
  - eexists. split; [reflexivity|]. simpl. rewrite Ect. eauto.
Qed.

Lemma phase_entry_ok (i : Z) (st : LoopState) :
  book_ok st →
  book_ok (entry i st)
  ∧ equity (entry i st) = equity st
  ∧ ls_trades (entry i st) = ls_trades st.
Proof.
  unfold book_ok, phase_entry.
  destruct (current_trade st) as [ct|] eqn:Ect.
  { intros H. by rewrite Ect. }
  intros Hempty.
  pose proof (can_trade_positions (risk_mgr st)) as Hc.
  destruct (RM.can_trade (risk_mgr st)) as [[can msg] rm1]. simpl in Hc.
  rewrite Hempty in Hc.
  repeat case_match; simpl in *; simplify_eq; try done.
  all: rewrite Hc; (split; [|done]); eexists; apply insert_empty.
Qed.

Lemma phase_equity_ok (st : LoopState) :
  book_ok st →
  book_ok (phase_equity st)
  ∧ equity (phase_equity st) = equity st ++ [account st]
  ∧ ls_trades (phase_equity st) = ls_trades st.
Proof. done. Qed.

Lemma bar_step_ok (i : Z) (st : LoopState) :
  book_ok st →
  Forall book_ok (fst (step i st))
  ∧ match snd (step i st) with
    | Ok st' =>
        book_ok st'
        ∧ length (equity st') = S (length (equity st))
        ∧ session_end_count (ls_trades st')
          = session_end_count (ls_trades st)
    | Raise _ => True
    end.
Proof.
  intros Hst. unfold bar_step.
  destruct (iloc df_full i) as [row|e]; [|by split; [constructor|]].
  destruct (phase_session_ok i st Hst) as (H1 & E1 & T1).
  destruct (phase_exit_ok i row _ H1) as (s2 & -> & H2 & E2 & T2).
  destruct (phase_entry_ok i s2 H2) as (H3 & E3 & T3).
  destruct (phase_equity_ok _ H3) as (H4 & E4 & T4).
  cbn [fst snd]. split; [by repeat constructor|].
  split; [done|]. rewrite E4, length_app, E3, E2, E1, T4, T3, T2, T1.
  cbn [length]. split; [lia|done].
Qed.

Lemma run_loop_ok (idxs : list Z) (st : LoopState) :
  book_ok st →
  Forall book_ok (fst (loop idxs st))
  ∧ match snd (loop idxs st) with
    | Ok st' =>
        book_ok st'
        ∧ length (equity st') = (length (equity st) + length idxs)%nat
        ∧ session_end_count (ls_trades st')
          = session_end_count (ls_trades st)
    | Raise _ => True
    end.
Proof.
  revert st. induction idxs as [|i idxs IH]; intros st Hst; simpl.
  { split; [constructor|]. split; [done|]. split; [lia|done]. }
  pose proof (bar_step_ok i st Hst) as [Hseen Hres].
  destruct (step i st) as [seen [st1|e]]; simpl in *; [|done].
  destruct Hres as (H1 & E1 & T1).
  specialize (IH st1 H1) as [Hseen' Hres'].
  destruct (loop idxs st1) as [seen' r]; simpl in *.
  split; [by apply Forall_app|].
  destruct r as [st2|e]; [|done].
  destruct Hres' as (H2 & E2 & T2).
  split; [done|]. rewrite E2, E1, T2, T1. split; [lia|done].
Qed.

Lemma final_close_ok (st st' : LoopState) :
  book_ok st →
  final_close df_full st = Ok st' →
  (size (open_positions (risk_mgr st')) ≤ 1)%nat
  ∧ ∃ k : nat,
      (k ≤ 1)%nat
      ∧ k = match current_trade st with Some _ => 1 | None => 0 end%nat
      ∧ length (equity st') = (length (equity st) + k)%nat
      ∧ session_end_count (ls_trades st')
        = (session_end_count (ls_trades st) + k)%nat.
Proof.
  intros Hst. pose proof (book_ok_size st Hst) as Hsize.
  unfold final_close, book_ok in *.
  destruct (current_trade st) as [ct|].
  2:{ intros [= <-]. split; [done|]. exists 0%nat.
      rewrite !Nat.add_0_r. by repeat split; try lia. }
  destruct Hst as [p Hp].
  destruct (iloc df_full (-1)) as [last_row|e]; [|done].
  destruct (process_exit_singleton (risk_mgr st) (ct_id ct) p
              (close (bar last_row)) "Session End" Hp) as (r & Hr & He).
  destruct (RM.process_exit _ _ _ _) as [info rm2]. simpl in *. subst info.
  intros [= <-]. simpl. rewrite He, map_size_empty. split; [lia|].
  exists 1%nat. rewrite length_app, session_end_count_snoc. simpl.
  by repeat split; try lia.
Qed.

Lemma initial_state_ok : book_ok (initial_state cfg).
Proof. done. Qed.

Lemma run_from_start_ok (walk_forward : bool) (in_sample_pct : Q) :
  let run := run_from_start generate_signal_hybrid1 generate_signal_hybrid2
               clock cfg df_full test_start walk_forward in_sample_pct in
  Forall (λ st, (size (open_positions (risk_mgr st)) ≤ 1)%nat) (fst run)
  ∧ ∀ r, snd run = Ok r →
      length (equity_curve r)
      = (S (length (py_range test_start (len df_full)))
         + session_end_count (trades r))%nat
      ∧ (session_end_count (trades r) ≤ 1)%nat.
Proof.
  unfold run_from_start.
  pose proof (run_loop_ok (py_range test_start (len df_full))
                (initial_state cfg) initial_state_ok) as [Hseen Hres].
  assert (Hseen' : Forall (λ st, (size (open_positions (risk_mgr st)) ≤ 1)%nat)
                   (fst (loop (py_range test_start (len df_full))
                           (initial_state cfg)))).
  { eapply Forall_impl; [exact Hseen|]. apply book_ok_size. }
  assert (H0 : (size (open_positions (risk_mgr (initial_state cfg))) ≤ 1)%nat)
    by (apply book_ok_size, initial_state_ok).
  destruct (loop _ _) as [seen [st|e]]; simpl in *.
  2:{ split; [by constructor|done]. }
  destruct Hres as (Hst & Elen & Tcnt).
  destruct (final_close df_full st) as [st'|e] eqn:Efc; simpl.
  2:{ split; [by constructor|done]. }
  destruct (final_close_ok st st' Hst Efc) as (Hsz & k & Hk & _ & Ek & Tk).
  split.
  - constructor; [done|]. apply Forall_app. split; [done|by constructor].
  - intros r [= <-]. cbn [trades equity_curve].
    rewrite Ek, Elen, Tk, Tcnt.
    change (session_end_count []) with 0%nat. split; lia.
Qed.

End LoopFacts.

(** ** Backtest: results *)

Section BacktestResults.

Variable compute_indicators : list Bar → StrategyConfig → list EnrichedBar.
Variable generate_signal_hybrid1 :
  list EnrichedBar → StrategyConfig → Z → option TradeSignal.
Variable generate_signal_hybrid2 :
  list EnrichedBar → StrategyConfig → option Q → option Q → Z
  → option TradeSignal.
Variable clock : Z → string.

Local Abbreviation trace := (run_backtest_trace compute_indicators
  generate_signal_hybrid1 generate_signal_hybrid2 clock).
Local Abbreviation backtest := (run_backtest compute_indicators
  generate_signal_hybrid1 generate_signal_hybrid2 clock).

(** C1. Whatever the strategy engine proposes, for every bar series,
    configuration and split: in every state the run passes through (the
    initial one, the state after each of the four parts of every loop
    iteration, and the state after the closing of a leftover trade) the
    manager's map of open positions has at most one entry. *)
Theorem at_most_one_open_position (df : list Bar) (cfg : StrategyConfig)
    (walk_forward : bool) (in_sample_pct : Q) :
  Forall (λ st, (size (open_positions (risk_mgr st)) ≤ 1)%nat)
    (fst (trace df cfg walk_forward in_sample_pct)).
Proof.
  unfold run_backtest_trace. case_match; [constructor|].
  apply run_from_start_ok.
Qed.

(** C6. On fewer than [trend_ema_period + 20] bars [run_backtest] returns,
    without raising, the result whose metrics carry the insufficient-data
    error and whose trade list and equity curve are empty. *)
Theorem insufficient_data_result (df : list Bar) (cfg : StrategyConfig)
    (walk_forward : bool) (in_sample_pct : Q) :
  len df < trend_ema_period cfg + 20 →
  ∃ r, backtest df cfg walk_forward in_sample_pct = Ok r
       ∧ metrics r = MetricsError "Insufficient data for backtest"
       ∧ trades r = []
       ∧ equity_curve r = []
       ∧ signals_generated r = 0.
Proof.
  intros H. unfold run_backtest, run_backtest_trace.
  apply Z.ltb_lt in H. rewrite H. by eexists.
Qed.

(** C7, as the code has it.  On sufficient data, when [run_backtest]
    returns, the equity curve holds the starting balance, one sample per
    bar of the evaluation loop, and one more sample for the trade that was
    still open after the last bar and was closed with reason
    ["Session End"]; there is at most one such trade. *)
Theorem equity_curve_length (df : list Bar) (cfg : StrategyConfig)
    (walk_forward : bool) (in_sample_pct : Q) (r : BacktestResult) :
  trend_ema_period cfg + 20 <= len df →
  backtest df cfg walk_forward in_sample_pct = Ok r →
  length (equity_curve r)
  = (S (length (bars_processed compute_indicators df cfg walk_forward
                  in_sample_pct))
     + session_end_count (trades r))%nat
  ∧ (session_end_count (trades r) ≤ 1)%nat.
Proof.
  intros Hlen. unfold run_backtest, run_backtest_trace, bars_processed.
  apply Z.ltb_ge in Hlen. rewrite Hlen. apply run_from_start_ok.
Qed.

End BacktestResults.

(** C7, refuted as stated: 70 flat bars, no walk-forward split, and an
    engine that proposes a long trade on every bar.  The loop evaluates 15
    bars, the trade opened on bar 59 is still open at the end, and the
    equity curve has 17 samples. *)
Lemma equity_curve_one_longer :
  length (bars_processed Demo.compute_indicators Demo.df default_config false
            (7 # 10)) = 15%nat
  ∧ ∃ r, Demo.run = Ok r
         ∧ length (equity_curve r) = 17%nat
         ∧ map tr_exit_reason (trades r) = ["Session End"].
Proof.
  split; [by vm_compute|]. unfold Demo.run.
  match goal with |- ∃ r, ?x = _ ∧ _ =>
    let v := eval vm_compute in x in
    match v with Ok ?r => exists r end
  end.
  split; [by vm_compute|]. split; by vm_compute.
Qed.

Lemma insufficient_data_result_witness :
  ∃ r, run_backtest Demo.compute_indicators Demo.always_long Demo.never
         Demo.clock (replicate 69 Demo.flat_bar) default_config true (7 # 10)
       = Ok r
       ∧ metrics r = MetricsError "Insufficient data for backtest"
       ∧ trades r = []
       ∧ equity_curve r = []
       ∧ signals_generated r = 0.
Proof.
  apply (insufficient_data_result Demo.compute_indicators Demo.always_long
           Demo.never Demo.clock (replicate 69 Demo.flat_bar) default_config
           true (7 # 10)).
  vm_compute. reflexivity.
Defined.

Lemma equity_curve_length_witness :
  ∃ r, Demo.run = Ok r
       ∧ length (equity_curve r)
         = (S (length (bars_processed Demo.compute_indicators Demo.df
                         default_config false (7 # 10)))
            + session_end_count (trades r))%nat.
Proof.
  destruct Demo.run as [r|e] eqn:E; [|by vm_compute in E].
  exists r. split; [done|].
  apply (equity_curve_length Demo.compute_indicators Demo.always_long
           Demo.never Demo.clock Demo.df default_config false (7 # 10) r).
  - vm_compute. discriminate.
  - exact E.
Defined.

(** The bound of C1 is reached: the demonstration run passes through 62
    states, and from the entry on bar 59 to the last bar a position is
    open. *)
Lemma demo_run_holds_a_position :
  let seen := fst (run_backtest_trace Demo.compute_indicators Demo.always_long
                     Demo.never Demo.clock Demo.df default_config false
                     (7 # 10)) in
  length seen = 62%nat
  ∧ existsb (λ st, (size (open_positions (risk_mgr st)) =? 1)%nat) seen = true.
Proof. split; by vm_compute. Qed.

(** ** Position sizing *)

Section Sizing.

Lemma Qmaxq_l x y : (x <= Qmaxq x y)%Q.
Proof.
  unfold Qmaxq. destruct (Qltb x y) eqn:E; [apply Qltb_lt in E|]; lra.
Qed.

Lemma Qmaxq_r x y : (y <= Qmaxq x y)%Q.
Proof.
  unfold Qmaxq. destruct (Qltb x y) eqn:E; [|apply Qltb_ge in E]; lra.
Qed.

Lemma py_int_floor x : (0 <= x)%Q → py_int x = Qfloor x.
Proof.
  intros H. destruct x as [n d]. unfold py_int, Qfloor. simpl.
  apply Z.quot_div_nonneg; [|lia].
  unfold Qle in H. simpl in H. lia.
Qed.

Lemma py_int_nonpos x : (x <= 0)%Q → py_int x <= 0.
Proof.
  intros H. destruct x as [n d]. unfold py_int. simpl.
  unfold Qle in H. simpl in H.
  assert (Hn : n <= 0) by lia.
  rewrite <- (Z.opp_involutive n), Z.quot_opp_l by lia.
  assert (0 <= Z.quot (- n) (Z.pos d)) by (apply Z.quot_pos; lia). lia.
Qed.

Lemma py_int_le x (n : Z) : 0 <= n → (x <= inject_Z n)%Q → py_int x <= n.
Proof.
  intros Hn H. destruct (Qlt_le_dec x 0) as [Hx|Hx].
  - assert (py_int x <= 0) by (apply py_int_nonpos; lra). lia.
  - rewrite py_int_floor by done. rewrite <- (Qfloor_Z n).
    by apply Qfloor_resp_le.
Qed.

Lemma py_int_below x : (0 <= x)%Q → (inject_Z (py_int x) <= x)%Q.
Proof. intros H. rewrite py_int_floor by done. apply Qfloor_le. Qed.

Lemma py_int_small x : (0 <= x)%Q → (x < 1)%Q → py_int x = 0.
Proof.
  intros H0 H1. rewrite py_int_floor by done.
  pose proof (Qfloor_le x) as Hlo. pose proof (Qlt_floor x) as Hhi.
  assert (Ha : (inject_Z (Qfloor x) < inject_Z 1)%Q)
    by (change (inject_Z 1) with 1%Q; lra).
  assert (Hb : (inject_Z (-1) < inject_Z (Qfloor x))%Q).
  { rewrite inject_Z_plus in Hhi. change (inject_Z 1) with 1%Q in Hhi.
    change (inject_Z (-1)) with (-1)%Q. lra. }
  rewrite <- Zlt_Qlt in Ha, Hb. lia.
Qed.

Lemma margin_cap_le_100 (a : Q) :
  py_int (a / Qmaxq (a * (1 # 100)) 1) <= 100.
Proof.
  apply py_int_le; [lia|].
  pose proof (Qmaxq_l (a * (1 # 100)) 1). pose proof (Qmaxq_r (a * (1 # 100)) 1).
  apply Qle_shift_div_r; [lra|]. change (inject_Z 100) with 100%Q. lra.
Qed.

End Sizing.

(** X1. [RiskManager.calculate_position_size] never returns a negative
    number, never more than 100 contracts, and returns 0 whenever the stop
    distance is zero or negative. *)
Theorem position_size_bounds (rm : RiskManager) (stop_distance_points : Q) :
  0 <= RM.calculate_position_size rm stop_distance_points <= 100
  ∧ ((stop_distance_points <= 0)%Q →
     RM.calculate_position_size rm stop_distance_points = 0).
Proof.
  unfold RM.calculate_position_size.
  destruct (Qleb stop_distance_points 0) eqn:E.
  { split; [lia|done]. }
  apply Qleb_gt in E. split; [|intros H; lra].
  pose proof (margin_cap_le_100 (account_size (config rm))). lia.
Qed.

(** X2. The half-contract rule of [RiskManager.calculate_position_size]:
    for a positive stop distance, when the risk budget buys less than half
    a contract the size is 0, and when it buys at least half a contract but
    less than a whole one the size is 1. *)
Theorem position_size_half_contract (rm : RiskManager)
    (stop_distance_points : Q) :
  (0 < stop_distance_points)%Q →
  let ratio := (account_size (config rm) * risk_per_trade_pct (config rm)
                / (stop_distance_points * MNQ_POINT_VALUE))%Q in
  ((ratio < 1 # 2)%Q → RM.calculate_position_size rm stop_distance_points = 0)
  ∧ ((1 # 2 <= ratio)%Q → (ratio < 1)%Q →
     RM.calculate_position_size rm stop_distance_points = 1).
Proof.
  intros Hs ratio. unfold RM.calculate_position_size.
  assert (E : Qleb stop_distance_points 0 = false) by by apply Qleb_gt.
  rewrite E. fold ratio. split.
  - intros Hr. assert (Eh : Qleb (1 # 2) ratio = false) by by apply Qleb_gt.
    rewrite Eh, andb_false_r.
    assert (py_int ratio <= 0).
    { destruct (Qlt_le_dec ratio 0).
      - apply py_int_nonpos. lra.
      - rewrite py_int_small; [lia|done|lra]. }
    lia.
  - intros H1 H2. rewrite (py_int_small ratio) by lra.
    apply Qleb_le in H1. rewrite H1. simpl. lia.
Qed.

Lemma position_size_half_contract_witness :
  RM.calculate_position_size (RM.init default_config) 100 = 0
  ∧ RM.calculate_position_size (RM.init default_config) 50 = 1.
Proof.
  split.
  - apply (position_size_half_contract (RM.init default_config) 100);
      vm_compute; reflexivity.
  - apply (position_size_half_contract (RM.init default_config) 50);
      vm_compute; (reflexivity || discriminate).
Defined.

(** X3. The dollar risk of the size chosen by
    [RiskManager.calculate_position_size], as computed by
    [calculate_risk_amount], is at most twice the risk budget
    [account_size * risk_per_trade_pct] (the factor two comes from rounding
    half a contract up to one). *)
Theorem sized_risk_within_twice_budget (rm : RiskManager)
    (stop_distance_points : Q) :
  (0 < stop_distance_points)%Q →
  (0 <= account_size (config rm) * risk_per_trade_pct (config rm))%Q →
  (RMx.calculate_risk_amount stop_distance_points
     (RM.calculate_position_size rm stop_distance_points)
   <= 2 * (account_size (config rm) * risk_per_trade_pct (config rm)))%Q.
Proof.
  intros Hs Hb. unfold RMx.calculate_risk_amount, RM.calculate_position_size.
  assert (E : Qleb stop_distance_points 0 = false) by by apply Qleb_gt.
  rewrite E.
  set (risk := (account_size (config rm) * risk_per_trade_pct (config rm))%Q)
    in *.
  set (cost := (stop_distance_points * MNQ_POINT_VALUE)%Q).
  assert (Hc : (0 < cost)%Q) by (unfold cost, MNQ_POINT_VALUE; lra).
  set (ratio := (risk / cost)%Q).
  assert (Hr0 : (0 <= ratio)%Q).
  { unfold ratio. apply Qle_shift_div_l; [done|]. lra. }
  assert (Hrc : (ratio * cost == risk)%Q).
  { unfold ratio. field. lra. }
  set (cap := Z.max 1 _).
  set (c1 := if (py_int ratio =? 0) && Qleb (1 # 2) ratio then 1
             else py_int ratio).
  assert (Hc1 : (inject_Z c1 * cost <= 2 * risk)%Q ∧ 0 <= c1).
  { unfold c1. pose proof (py_int_below ratio Hr0) as Hb'.
    assert (0 <= py_int ratio)
      by (rewrite py_int_floor by done; rewrite <- (Qfloor_Z 0);
          by apply Qfloor_resp_le).
    destruct ((py_int ratio =? 0) && Qleb (1 # 2) ratio) eqn:E1.
    - apply andb_true_iff in E1 as [_ E1]. apply Qleb_le in E1.
      split; [|lia]. change (inject_Z 1) with 1%Q. nra.
    - split; [|lia]. nra. }
  destruct Hc1 as [Hc1 Hc1'].
  assert (Hfin : 0 <= Z.max 0 (Z.min c1 cap) <= c1) by lia.
  destruct Hfin as [Hf0 Hf1].
  rewrite Zle_Qle in Hf0, Hf1. change (inject_Z 0) with 0%Q in Hf0.
  fold cost. nra.
Qed.

Lemma sized_risk_within_twice_budget_witness :
  (RMx.calculate_risk_amount 50
     (RM.calculate_position_size (RM.init default_config) 50)
   <= 2 * (25000 * (25 # 10000)))%Q.
Proof.
  apply (sized_risk_within_twice_budget (RM.init default_config) 50);
    vm_compute; (reflexivity || discriminate).
Defined.

(** ** Risk manager: the pre-trade gate *)

Lemma can_trade_allowed_iff (rm : RiskManager) :
  fst (fst (RM.can_trade rm)) = true
  ↔ is_shutdown rm = false
    ∧ (- RM.max_loss rm < daily_pnl rm)%Q
    ∧ trades_today rm < max_trades_per_session (config rm)
    ∧ open_positions rm = ∅.
Proof.
  unfold RM.can_trade.
  destruct (is_shutdown rm) eqn:E1; simpl; [split; [done|by intros [? _]]|].
  destruct (Qleb (daily_pnl rm) (- RM.max_loss rm)) eqn:E2; simpl.
  { apply Qleb_le in E2. split; [done|]. intros (_ & H & _). lra. }
  apply Qleb_gt in E2.
  destruct (trades_today rm >=? max_trades_per_session (config rm)) eqn:E3;
    simpl.
  { split; [done|]. lia. }
  destruct (0 <? size (open_positions rm))%nat eqn:E4; simpl.
  - apply Nat.ltb_lt in E4. split; [done|]. intros (_ & _ & _ & He).
    rewrite He, map_size_empty in E4. lia.
  - apply Nat.ltb_ge in E4. split; [|done]. intros _.
    repeat split; [done|lia|]. apply map_size_empty_iff. lia.
Qed.

(** X4. [can_trade] allows a trade exactly when the manager is not shut
    down, the day's loss is still above minus the limit, the trade cap is
    not reached and no position is open; an allowing call answers ["OK"]
    and changes nothing; and asking twice in a row gives the same verdict
    and the same manager as asking once. *)
Theorem can_trade_decision (rm : RiskManager) :
  (fst (fst (RM.can_trade rm)) = true
   ↔ is_shutdown rm = false
     ∧ (- RM.max_loss rm < daily_pnl rm)%Q
     ∧ trades_today rm < max_trades_per_session (config rm)
     ∧ open_positions rm = ∅)
  ∧ (fst (fst (RM.can_trade rm)) = true →
     RM.can_trade rm = ((true, "OK"), rm))
  ∧ fst (fst (RM.can_trade (snd (RM.can_trade rm))))
    = fst (fst (RM.can_trade rm))
  ∧ snd (RM.can_trade (snd (RM.can_trade rm))) = snd (RM.can_trade rm).
Proof.
  split; [apply can_trade_allowed_iff|].
  unfold RM.can_trade.
  destruct (is_shutdown rm) eqn:E1; simpl; rewrite ?E1; simpl; [done|].
  destruct (Qleb (daily_pnl rm) (- RM.max_loss rm)) eqn:E2; simpl;
    rewrite ?E1, ?E2; simpl; [done|].
  destruct (trades_today rm >=? max_trades_per_session (config rm)) eqn:E3;
    simpl; rewrite ?E1, ?E2, ?E3; simpl; [done|].
  destruct (0 <? size (open_positions rm))%nat eqn:E4; simpl;
    rewrite ?E1, ?E2, ?E3, ?E4; simpl; done.
Qed.

(** ** Risk manager: exits *)

(** X5. A trade id that is not open is a no-op for the three methods that
    take one: [process_exit] returns the zero dictionary,
    [update_trailing_stop] and [check_exit_conditions] return [None], and
    the manager is left exactly as it was. *)
Theorem unknown_trade_id_is_noop (rm : RiskManager) (id : Z) :
  open_positions rm !! id = None →
  (∀ price reason, RM.process_exit rm id price reason = (ExitUnknown, rm))
  ∧ (∀ price, RM.update_trailing_stop rm id price = (None, rm))
  ∧ (∀ h l c, RM.check_exit_conditions rm id h l c = (None, rm)).
Proof.
  intros H. unfold RM.process_exit, RM.update_trailing_stop,
    RM.check_exit_conditions. by rewrite H.
Qed.

Lemma unknown_trade_id_is_noop_witness :
  RM.process_exit Demo.one_long 2 21500 "Manual" = (ExitUnknown, Demo.one_long)
  ∧ RM.update_trailing_stop Demo.one_long 2 21600 = (None, Demo.one_long)
  ∧ RM.check_exit_conditions Demo.one_long 2 21600 21400 21500
    = (None, Demo.one_long).
Proof.
  destruct (unknown_trade_id_is_noop Demo.one_long 2 eq_refl)
    as (H1 & H2 & H3).
  split; [apply H1|]. split; [apply H2|apply H3].
Defined.

(** X6. [process_exit] on an open trade id removes exactly that position,
    appends exactly one record to the ledger, carrying the id, the
    position's direction, entry price and quantity and the given exit price
    and reason, and leaves the trade count and the configuration alone. *)
Theorem process_exit_closes_position (rm : RiskManager) (id : Z)
    (pos : Position) (price : Q) (reason : string) :
  open_positions rm !! id = Some pos →
  let out := RM.process_exit rm id price reason in
  ∃ r, fst out = ExitDone r
       ∧ x_trade_id r = id
       ∧ x_direction r = direction pos
       ∧ x_entry_price r = entry_price pos
       ∧ x_quantity r = quantity pos
       ∧ x_exit_price r = price
       ∧ x_exit_reason r = reason
       ∧ trade_log (snd out) = trade_log rm ++ [r]
       ∧ open_positions (snd out) !! id = None
       ∧ (∀ j, j ≠ id →
            open_positions (snd out) !! j = open_positions rm !! j)
       ∧ S (size (open_positions (snd out))) = size (open_positions rm)
       ∧ trades_today (snd out) = trades_today rm
       ∧ config (snd out) = config rm.
Proof.
  intros H out. unfold out, RM.process_exit. rewrite H. simpl.
  eexists. split; [reflexivity|]. simpl. repeat split.
  - apply lookup_delete_eq.
  - intros j Hj. by apply lookup_delete_ne.
  - rewrite <- (insert_delete_id _ _ _ H) at 2.
    by rewrite map_size_insert_None by apply lookup_delete_eq.
Qed.

Lemma process_exit_closes_position_witness :
  ∃ r, fst (RM.process_exit Demo.one_long 1 21550 "Take Profit") = ExitDone r
       ∧ x_exit_reason r = "Take Profit"
       ∧ open_positions
           (snd (RM.process_exit Demo.one_long 1 21550 "Take Profit")) !! 1
         = None.
Proof.
  destruct (process_exit_closes_position Demo.one_long 1
              {| direction := "LONG"; entry_price := 21500;
                 stop_loss := 21475; take_profit := 21550; quantity := 1;
                 highest_price := 21500; lowest_price := 21500;
                 entry_time := "2024-01-02T09:30:00" |}
              21550 "Take Profit" eq_refl)
    as (r & H1 & _ & _ & _ & _ & _ & H7 & _ & H9 & _).
  exists r. split; [exact H1|]. split; [exact H7|exact H9].
Defined.

(** X7. Entering a trade under an id that is not open and then exiting it
    gives back the map of open positions as it was before the entry; the
    trade count has grown by one and the ledger by one record, which shows
    the direction, entry price and quantity that were entered. *)
Theorem entry_then_exit_restores_positions (rm : RiskManager) (id : Z)
    (dir : string) (entry stop target : Q) (qty : Z) (now : string)
    (price : Q) (reason : string) :
  open_positions rm !! id = None →
  let out :=
    RM.process_exit (RM.process_entry rm id dir entry stop target qty now)
      id price reason in
  open_positions (snd out) = open_positions rm
  ∧ trades_today (snd out) = trades_today rm + 1
  ∧ ∃ r, fst out = ExitDone r
         ∧ trade_log (snd out) = trade_log rm ++ [r]
         ∧ x_direction r = dir
         ∧ x_entry_price r = entry
         ∧ x_quantity r = qty.
Proof.
  intros H out. unfold out, RM.process_exit, RM.process_entry. simpl.
  rewrite lookup_insert_eq. simpl. split; [by apply delete_insert_id|].
  split; [done|]. eexists. by repeat split.
Qed.

Lemma entry_then_exit_restores_positions_witness :
  open_positions
    (snd (RM.process_exit
            (RM.process_entry Demo.one_long 2 "SHORT" 21500 21525 21450 1
               "2024-01-02T09:35:00")
            2 21450 "Take Profit"))
  = open_positions Demo.one_long.
Proof.
  apply (entry_then_exit_restores_positions Demo.one_long 2 "SHORT" 21500
           21525 21450 1 "2024-01-02T09:35:00" 21450 "Take Profit" eq_refl).
Defined.

(** X8. What an exit adds to [daily_pnl]: the favourable price move of the
    position (exit minus entry for a long, entry minus exit otherwise)
    times point value and quantity, less the slippage [exit_price *
    slippage_pct] times point value and quantity, less the round-trip
    commission [commission_per_contract * quantity * 2]. *)
Theorem process_exit_pnl_breakdown (rm : RiskManager) (id : Z)
    (pos : Position) (price : Q) (reason : string) :
  open_positions rm !! id = Some pos →
  let qty := inject_Z (quantity pos) in
  (daily_pnl (snd (RM.process_exit rm id price reason))
   == daily_pnl rm
      + favourable_move pos price * MNQ_POINT_VALUE * qty
      - price * slippage_pct (config rm) * MNQ_POINT_VALUE * qty
      - commission_per_contract (config rm) * qty * 2)%Q.
Proof.
  intros H qty. unfold RM.process_exit, favourable_move. rewrite H. simpl.
  fold qty. destruct (is_long pos); ring.
Qed.

Lemma process_exit_pnl_breakdown_witness :
  (daily_pnl (snd (RM.process_exit Demo.one_long 1 21550 "Take Profit"))
   == 0 + (21550 - 21500) * 2 * 1 - 21550 * (1 # 1000) * 2 * 1
      - (62 # 100) * 1 * 2)%Q.
Proof.
  apply (process_exit_pnl_breakdown Demo.one_long 1
           {| direction := "LONG"; entry_price := 21500;
              stop_loss := 21475; take_profit := 21550; quantity := 1;
              highest_price := 21500; lowest_price := 21500;
              entry_time := "2024-01-02T09:30:00" |}
           21550 "Take Profit" eq_refl).
Defined.

Lemma process_exit_shutdown_fields (rm : RiskManager) (id : Z)
    (pos : Position) (price : Q) (reason : string) :
  open_positions rm !! id = Some pos →
  let rm' := snd (RM.process_exit rm id price reason) in
  let hit := Qleb (daily_pnl rm') (- RM.max_loss rm) in
  is_shutdown rm' = (if hit then true else is_shutdown rm)
  ∧ shutdown_reason rm'
    = (if hit
       then ("Max daily loss reached after trade"
               ++ (" ($" ++ fmt_2f (Qabs (daily_pnl rm')) ++ ")"))%string
       else shutdown_reason rm)
  ∧ config rm' = config rm.
Proof.
  intros H. unfold RM.process_exit. rewrite H.
  cbn [snd is_shutdown shutdown_reason daily_pnl config]. done.
Qed.

(** X9. After an exit the shutdown flag is set exactly when it was set
    before or the new [daily_pnl] is at or below minus the daily loss
    limit; in the latter case the stored reason is the
    ["Max daily loss reached after trade"] message and the next [can_trade]
    refuses. *)
Theorem process_exit_latches_shutdown (rm : RiskManager) (id : Z)
    (pos : Position) (price : Q) (reason : string) :
  open_positions rm !! id = Some pos →
  let rm' := snd (RM.process_exit rm id price reason) in
  (is_shutdown rm' = true
   ↔ is_shutdown rm = true ∨ (daily_pnl rm' <= - RM.max_loss rm)%Q)
  ∧ ((daily_pnl rm' <= - RM.max_loss rm)%Q →
     String.prefix "Max daily loss reached after trade" (shutdown_reason rm')
     = true
     ∧ fst (fst (RM.can_trade rm')) = false).
Proof.
  intros H rm'.
  destruct (process_exit_shutdown_fields rm id pos price reason H)
    as (Hs & Hr & Hc).
  fold rm' in Hs, Hr, Hc.
  destruct (Qleb (daily_pnl rm') (- RM.max_loss rm)) eqn:E.
  - apply Qleb_le in E. split; [naive_solver|]. intros _.
    split; [rewrite Hr; apply prefix_app|].
    unfold RM.can_trade. by rewrite Hs.
  - apply Qleb_gt in E. split; [|intros; lra].
    rewrite Hs. split; [auto|]. intros [?|?]; [done|lra].
Qed.

Lemma process_exit_latches_shutdown_witness :
  is_shutdown (snd (RM.process_exit
                      (RM.process_entry (RM.init default_config) 1 "LONG"
                         21500 21000 22000 1 "2024-01-02T09:30:00")
                      1 21000 "Stop Loss")) = true.
Proof.
  pose proof (process_exit_latches_shutdown
           (RM.process_entry (RM.init default_config) 1 "LONG" 21500 21000
              22000 1 "2024-01-02T09:30:00")
           1
           {| direction := "LONG"; entry_price := 21500;
              stop_loss := 21000; take_profit := 22000; quantity := 1;
              highest_price := 21500; lowest_price := 21500;
              entry_time := "2024-01-02T09:30:00" |}
           21000 "Stop Loss" eq_refl) as [H _].
  apply H. right. vm_compute. discriminate.
Defined.

(** X10. The outcomes of [check_exit_conditions] when the stop is not
    touched.  If the bar reaches the target (high at or above it for a long
    position, low at or below it for any other direction) the answer is the
    target price with reason ["Take Profit"] and the manager is unchanged;
    if it does not, the answer is [None] and the manager is the one left by
    [update_trailing_stop] on the bar's close.  Any direction other than
    ["LONG"] is handled as a short position. *)
Theorem check_exit_without_stop (rm : RiskManager) (id : Z) (pos : Position)
    (h l c : Q) :
  open_positions rm !! id = Some pos →
  (if is_long pos then stop_loss pos < l else h < stop_loss pos)%Q →
  let target_hit :=
    if is_long pos then Qleb (take_profit pos) h
    else Qleb l (take_profit pos) in
  RM.check_exit_conditions rm id h l c
  = if target_hit then (Some (take_profit pos, "Take Profit"), rm)
    else (None, snd (RM.update_trailing_stop rm id c)).
Proof.
  intros H Hs. unfold RM.check_exit_conditions. rewrite H.
  destruct (is_long pos); apply Qleb_gt in Hs; rewrite Hs;
    by case_match.
Qed.

Lemma check_exit_without_stop_witness :
  RM.check_exit_conditions Demo.one_long 1 21555 21530 21552
    = (Some (21550%Q, "Take Profit"), Demo.one_long)
  ∧ RM.check_exit_conditions Demo.one_short 7 21490 21440 21460
    = (Some (21450%Q, "Take Profit"), Demo.one_short).
Proof.
  split.
  - apply (check_exit_without_stop Demo.one_long 1
             {| direction := "LONG"; entry_price := 21500;
                stop_loss := 21475; take_profit := 21550; quantity := 1;
                highest_price := 21500; lowest_price := 21500;
                entry_time := "2024-01-02T09:30:00" |}
             21555 21530 21552 eq_refl).
    vm_compute. reflexivity.
  - apply (check_exit_without_stop Demo.one_short 7
             {| direction := "SHORT"; entry_price := 21500;
                stop_loss := 21525; take_profit := 21450; quantity := 2;
                highest_price := 21500; lowest_price := 21500;
                entry_time := "2024-01-02T09:30:00" |}
             21490 21440 21460 eq_refl).
    vm_compute. reflexivity.
Defined.

(** ** Risk manager: trailing stop, in general and on the cent grid *)

Section Trailing.

Lemma round_half_even_near_floor x :
  Qfloor x <= round_half_even x <= Qfloor x + 1.
Proof. unfold round_half_even. repeat case_match; lia. Qed.

Lemma round2_on_cent_grid x : on_cent_grid (round2 x).
Proof. exists (round_half_even (x * 100)). reflexivity. Qed.

Lemma Qmake_100_le (a b : Z) : a <= b → (a # 100 <= b # 100)%Q.
Proof. intros H. unfold Qle. simpl. lia. Qed.

Lemma round2_above_grid (c x : Q) :
  on_cent_grid c → (c < x)%Q → (c <= round2 x)%Q.
Proof.
  intros [k Hk] Hlt. rewrite Hk. unfold round2. apply Qmake_100_le.
  pose proof (round_half_even_near_floor (x * 100)) as [Hf _].
  assert (Hle : (inject_Z k <= x * 100)%Q).
  { rewrite Hk, Qmake_100 in Hlt. lra. }
  apply Qfloor_resp_le in Hle. rewrite Qfloor_Z in Hle. lia.
Qed.

Lemma round2_below_grid (c x : Q) :
  on_cent_grid c → (x < c)%Q → (round2 x <= c)%Q.
Proof.
  intros [k Hk] Hlt. rewrite Hk. unfold round2. apply Qmake_100_le.
  pose proof (round_half_even_near_floor (x * 100)) as [_ Hf].
  pose proof (Qfloor_le (x * 100)) as Hfl.
  assert (Hlt' : (inject_Z (Qfloor (x * 100)) < inject_Z k)%Q).
  { rewrite Hk, Qmake_100 in Hlt. lra. }
  rewrite <- Zlt_Qlt in Hlt'. lia.
Qed.

End Trailing.

(** X11. [update_trailing_stop] on an open position touches nothing but
    that position's stop and water marks: its direction, entry price,
    target, quantity and entry time are kept, every other position is kept
    (the map is the old one with this id overwritten), and the daily
    counters, the shutdown state, the ledger and the configuration are
    unchanged. *)
Theorem update_trailing_stop_frame (rm : RiskManager) (id : Z)
    (pos : Position) (price : Q) :
  open_positions rm !! id = Some pos →
  let rm' := snd (RM.update_trailing_stop rm id price) in
  ∃ pos', open_positions rm' = <[id := pos']> (open_positions rm)
          ∧ direction pos' = direction pos
          ∧ entry_price pos' = entry_price pos
          ∧ take_profit pos' = take_profit pos
          ∧ quantity pos' = quantity pos
          ∧ entry_time pos' = entry_time pos
          ∧ config rm' = config rm
          ∧ daily_pnl rm' = daily_pnl rm
          ∧ trades_today rm' = trades_today rm
          ∧ is_shutdown rm' = is_shutdown rm
          ∧ shutdown_reason rm' = shutdown_reason rm
          ∧ trade_log rm' = trade_log rm.
Proof.
  intros H rm'. unfold rm', RM.update_trailing_stop. rewrite H.
  repeat case_match; simpl; eexists; (split; [reflexivity|]);
    by repeat split.
Qed.

Lemma update_trailing_stop_frame_witness :
  ∃ pos', open_positions (snd (RM.update_trailing_stop Demo.one_long 1 21530))
          = <[1 := pos']> (open_positions Demo.one_long)
          ∧ take_profit pos' = 21550%Q.
Proof.
  destruct (update_trailing_stop_frame Demo.one_long 1
              {| direction := "LONG"; entry_price := 21500;
                 stop_loss := 21475; take_profit := 21550; quantity := 1;
                 highest_price := 21500; lowest_price := 21500;
                 entry_time := "2024-01-02T09:30:00" |}
              21530 eq_refl) as (pos' & H1 & _ & _ & H4 & _).
  exists pos'. split; [exact H1|exact H4].
Defined.

(** X12. What [update_trailing_stop] returns and records for an open
    position.  A returned value is the stop now stored, and it is a whole
    number of cents; when [None] is returned the stored stop is the old
    one.  For a long position the highest price only grows and is at least
    the current price afterwards, and the lowest price is untouched (for
    any other direction the lowest price only falls and is at most the
    current price, and the highest price is untouched).  While the position
    is not in profit (price at or below entry for a long, at or above entry
    otherwise) the answer is [None]. *)
Theorem update_trailing_stop_result (rm : RiskManager) (id : Z)
    (pos : Position) (price : Q) :
  open_positions rm !! id = Some pos →
  let out := RM.update_trailing_stop rm id price in
  ∃ pos', open_positions (snd out) !! id = Some pos'
          ∧ (∀ s, fst out = Some s → stop_loss pos' = s ∧ on_cent_grid s)
          ∧ (fst out = None → stop_loss pos' = stop_loss pos)
          ∧ (if is_long pos
             then (highest_price pos <= highest_price pos')%Q
                  ∧ (price <= highest_price pos')%Q
                  ∧ lowest_price pos' = lowest_price pos
             else (lowest_price pos' <= lowest_price pos)%Q
                  ∧ (lowest_price pos' <= price)%Q
                  ∧ highest_price pos' = highest_price pos)
          ∧ ((if is_long pos then price <= entry_price pos
              else entry_price pos <= price)%Q → fst out = None).
Proof.
  intros H out. unfold out, RM.update_trailing_stop. rewrite H.
  destruct (is_long pos).
  - set (pos1 := if Qltb (highest_price pos) price
                 then set_highest_price price pos else pos).
    assert (Hp1 : stop_loss pos1 = stop_loss pos
                  ∧ lowest_price pos1 = lowest_price pos
                  ∧ (highest_price pos <= highest_price pos1)%Q
                  ∧ (price <= highest_price pos1)%Q).
    { unfold pos1. destruct (Qltb (highest_price pos) price) eqn:E;
        [apply Qltb_lt in E|apply Qltb_ge in E]; simpl;
        repeat split; lra. }
    destruct Hp1 as (S1 & L1 & H1 & H2).
    destruct (Qleb (price - entry_price pos) 0) eqn:Ep.
    { exists pos1. simpl. rewrite lookup_insert_eq. by repeat split. }
    apply Qleb_gt in Ep.
    destruct (Qltb (stop_loss pos) _) eqn:Et.
    + eexists. simpl. rewrite lookup_insert_eq. split; [reflexivity|].
      simpl. split; [intros s [= <-]; split;
                       [done|apply round2_on_cent_grid]|].
      split; [done|]. split; [done|]. intros; lra.
    + exists pos1. simpl. rewrite lookup_insert_eq. split; [done|].
      split; [by intros s [=]|]. split; [done|]. split; [done|].
      intros; lra.
  - set (pos1 := if Qltb price (lowest_price pos)
                 then set_lowest_price price pos else pos).
    assert (Hp1 : stop_loss pos1 = stop_loss pos
                  ∧ highest_price pos1 = highest_price pos
                  ∧ (lowest_price pos1 <= lowest_price pos)%Q
                  ∧ (lowest_price pos1 <= price)%Q).
    { unfold pos1. destruct (Qltb price (lowest_price pos)) eqn:E;
        [apply Qltb_lt in E|apply Qltb_ge in E]; simpl;
        repeat split; lra. }
    destruct Hp1 as (S1 & L1 & H1 & H2).
    destruct (Qleb (entry_price pos - price) 0) eqn:Ep.
    { exists pos1. simpl. rewrite lookup_insert_eq. by repeat split. }
    apply Qleb_gt in Ep.
    destruct (Qltb _ (stop_loss pos)) eqn:Et.
    + eexists. simpl. rewrite lookup_insert_eq. split; [reflexivity|].
      simpl. split; [intros s [= <-]; split;
                       [done|apply round2_on_cent_grid]|].
      split; [done|]. split; [done|]. intros; lra.
    + exists pos1. simpl. rewrite lookup_insert_eq. split; [done|].
      split; [by intros s [=]|]. split; [done|]. split; [done|].
      intros; lra.
Qed.

Lemma update_trailing_stop_result_witness :
  ∃ pos', open_positions (snd (RM.update_trailing_stop Demo.one_long 1 21530))
            !! 1 = Some pos'
          ∧ (highest_price (Build_Position "LONG" 21500 21475 21550 1 21500
                              21500 "2024-01-02T09:30:00")
             <= highest_price pos')%Q
          ∧ (21530 <= highest_price pos')%Q.
Proof.
  destruct (update_trailing_stop_result Demo.one_long 1
              (Build_Position "LONG" 21500 21475 21550 1 21500 21500
                 "2024-01-02T09:30:00")
              21530 eq_refl) as (pos' & H1 & _ & _ & H4 & _).
  exists pos'. split; [exact H1|]. simpl in H4.
  destruct H4 as (Ha & Hb & _). split; [exact Ha|exact Hb].
Defined.

Section TrailingOnGrid.

Lemma trail_step_on_grid (rm : RiskManager) (id : Z) (pos : Position)
    (price : Q) :
  open_positions rm !! id = Some pos →
  on_cent_grid (stop_loss pos) →
  ∃ pos', open_positions (snd (RM.update_trailing_stop rm id price)) !! id
          = Some pos'
          ∧ is_long pos' = is_long pos
          ∧ on_cent_grid (stop_loss pos')
          ∧ (if is_long pos then stop_loss pos <= stop_loss pos'
             else stop_loss pos' <= stop_loss pos)%Q.
Proof.
  intros H Hg. unfold RM.update_trailing_stop. rewrite H.
  destruct (is_long pos) eqn:El.
  - set (pos1 := if Qltb (highest_price pos) price
                 then set_highest_price price pos else pos).
    assert (Hp1 : stop_loss pos1 = stop_loss pos ∧ is_long pos1 = true).
    { unfold pos1. by destruct (Qltb (highest_price pos) price). }
    destruct Hp1 as (S1 & L1).
    destruct (Qleb (price - entry_price pos) 0).
    { exists pos1. simpl. rewrite lookup_insert_eq, S1.
      repeat split; try done. lra. }
    destruct (Qltb (stop_loss pos) _) eqn:Et.
    + apply Qltb_lt in Et. eexists. simpl. rewrite lookup_insert_eq.
      split; [reflexivity|]. simpl. split; [exact L1|].
      split; [apply round2_on_cent_grid|]. by apply round2_above_grid.
    + exists pos1. simpl. rewrite lookup_insert_eq, S1.
      repeat split; try done. lra.
  - set (pos1 := if Qltb price (lowest_price pos)
                 then set_lowest_price price pos else pos).
    assert (Hp1 : stop_loss pos1 = stop_loss pos ∧ is_long pos1 = false).
    { unfold pos1. by destruct (Qltb price (lowest_price pos)). }
    destruct Hp1 as (S1 & L1).
    destruct (Qleb (entry_price pos - price) 0).
    { exists pos1. simpl. rewrite lookup_insert_eq, S1.
      repeat split; try done. lra. }
    destruct (Qltb _ (stop_loss pos)) eqn:Et.
    + apply Qltb_lt in Et. eexists. simpl. rewrite lookup_insert_eq.
      split; [reflexivity|]. simpl. split; [exact L1|].
      split; [apply round2_on_cent_grid|]. by apply round2_below_grid.
    + exists pos1. simpl. rewrite lookup_insert_eq, S1.
      repeat split; try done. lra.
Qed.

End TrailingOnGrid.

(** X13. Once the stop of an open position is a whole number of cents, no
    run of [update_trailing_stop] calls, whatever the prices, moves it
    against the holder: for a long position the stored stop after the run
    is at least the stop before it, for any other direction at most; the
    position is still open and its stop is still a whole number of cents. *)
Theorem trailing_stop_monotone_on_cent_grid (rm : RiskManager) (id : Z)
    (pos : Position) (prices : list Q) :
  open_positions rm !! id = Some pos →
  on_cent_grid (stop_loss pos) →
  ∃ pos', open_positions (RMx.trail_prices id prices rm) !! id = Some pos'
          ∧ on_cent_grid (stop_loss pos')
          ∧ (if is_long pos then stop_loss pos <= stop_loss pos'
             else stop_loss pos' <= stop_loss pos)%Q.
Proof.
  revert rm pos. induction prices as [|p prices IH]; intros rm pos H Hg.
  { exists pos. simpl. split; [done|]. split; [done|].
    destruct (is_long pos); lra. }
  destruct (trail_step_on_grid rm id pos p H Hg) as (pos1 & H1 & L1 & G1 & M1).
  destruct (IH _ pos1 H1 G1) as (pos2 & H2 & G2 & M2).
  exists pos2. simpl. split; [exact H2|]. split; [exact G2|].
  rewrite L1 in M2. destruct (is_long pos); lra.
Qed.

Lemma trailing_stop_monotone_on_cent_grid_witness :
  ∃ pos', open_positions
            (RMx.trail_prices 1 [21530%Q; 21510%Q; 21560%Q; 21490%Q]
               Demo.one_long) !! 1 = Some pos'
          ∧ (21475 <= stop_loss pos')%Q.
Proof.
  destruct (trailing_stop_monotone_on_cent_grid Demo.one_long 1
              (Build_Position "LONG" 21500 21475 21550 1 21500 21500
                 "2024-01-02T09:30:00")
              [21530%Q; 21510%Q; 21560%Q; 21490%Q] eq_refl)
    as (pos' & H1 & _ & H3).
  - exists 2147500. reflexivity.
  - exists pos'. split; [exact H1|exact H3].
Defined.

(** ** Risk manager: status report *)

Section StatusFacts.

Lemma round2_nonneg x : (0 <= x)%Q → (0 <= round2 x)%Q.
Proof.
  intros H. unfold round2.
  pose proof (round_half_even_near_floor (x * 100)) as [Hf _].
  assert (Hle : (inject_Z 0 <= x * 100)%Q)
    by (change (inject_Z 0) with 0%Q; lra).
  apply Qfloor_resp_le in Hle. rewrite Qfloor_Z in Hle.
  unfold Qle. simpl. lia.
Qed.

End StatusFacts.

(** X14. [get_status] never reports a negative number of remaining trades
    or a negative remaining loss budget; the remaining trades are 0 exactly
    when the trade cap is reached, the remaining loss budget is 0 whenever
    [daily_pnl] is at or below minus the daily loss limit (the states in
    which [can_trade] refuses for the day), and the loss-budget percentage
    is 0 when the limit itself is not positive. *)
Theorem get_status_budgets (rm : RiskManager) :
  let s := RMx.get_status rm in
  0 <= st_trades_remaining s
  ∧ (st_trades_remaining s = 0
     ↔ max_trades_per_session (config rm) <= trades_today rm)
  ∧ (0 <= st_remaining_loss_budget s)%Q
  ∧ ((daily_pnl rm <= - RM.max_loss rm)%Q →
     (st_remaining_loss_budget s == 0)%Q
     ∧ fst (fst (RM.can_trade rm)) = false)
  ∧ ((RM.max_loss rm <= 0)%Q → st_loss_budget_pct s = 0%Q)
  ∧ st_open_positions s = Z.of_nat (size (open_positions rm)).
Proof.
  simpl. split; [lia|]. split; [lia|].
  split; [apply round2_nonneg, Qmaxq_l|].
  split; [|split; [|done]].
  - intros H. split.
    + assert (E : Qltb 0 (RM.max_loss rm + daily_pnl rm) = false)
        by (apply Qltb_ge; lra).
      unfold Qmaxq. rewrite E. reflexivity.
    + unfold RM.can_trade. destruct (is_shutdown rm); [done|].
      apply Qleb_le in H. by rewrite H.
  - intros H. assert (E : Qltb 0 (RM.max_loss rm) = false)
      by by apply Qltb_ge.
    by rewrite E.
Qed.

(** ** Helpers: ratios over a trade ledger *)

Section LedgerRatios.

Lemma Qsum_nonneg (l : list Q) : Forall (λ x, (0 < x)%Q) l → (0 <= Qsum l)%Q.
Proof. induction 1 as [|x l Hx _ IH]; simpl; lra. Qed.

Lemma Qsum_positive (l : list Q) :
  Forall (λ x, (0 < x)%Q) l → l ≠ [] → (0 < Qsum l)%Q.
Proof.
  intros H Hne. destruct H as [|x l Hx Hl]; [done|]. simpl.
  pose proof (Qsum_nonneg l Hl). lra.
Qed.

Lemma winners_positive (pnl : list Q) :
  Forall (λ x, (0 < x)%Q) (List.filter (λ x, Qltb 0 x) pnl).
Proof.
  eapply Forall_impl; [apply filter_pred|]. intros x Hx. by apply Qltb_lt.
Qed.

Lemma losers_negative (pnl : list Q) :
  Forall (λ x, (x < 0)%Q) (List.filter (λ x, Qltb x 0) pnl).
Proof.
  eapply Forall_impl; [apply filter_pred|]. intros x Hx. by apply Qltb_lt.
Qed.

Lemma mean_nonneg (l : list Q) : Forall (λ x, (0 < x)%Q) l → (0 <= mean l)%Q.
Proof.
  intros H. unfold mean. destruct l as [|x l]; [by vm_compute|].
  apply Qle_shift_div_l; [by apply count_positive|].
  pose proof (Qsum_nonneg _ H). lra.
Qed.

Lemma filter_length_le (f : Q → bool) (l : list Q) :
  (length (List.filter f l) ≤ length l)%nat.
Proof. induction l as [|a l IH]; simpl; [lia|]. destruct (f a); simpl; lia. Qed.

End LedgerRatios.

(** X15. [calculate_win_rate] is always between 0 and 1, it is 0 on an
    empty ledger, and it is 1 only if every trade of the ledger has a
    positive P&L. *)
Theorem win_rate_in_unit_interval (pnl : list Q) :
  (0 <= calculate_win_rate pnl <= 1)%Q
  ∧ calculate_win_rate [] = 0%Q
  ∧ ((calculate_win_rate pnl == 1)%Q → Forall (λ x, (0 < x)%Q) pnl).
Proof.
  split; [|split; [done|]].
  - unfold calculate_win_rate. destruct pnl as [|p pnl]; [by vm_compute|].
    change (length (p :: pnl) =? 0)%nat with false. cbv iota.
    set (l := p :: pnl).
    assert (Hn : (0 < inject_Z (Z.of_nat (length l)))%Q)
      by by apply count_positive.
    pose proof (filter_length_le (λ x, Qltb 0 x) l) as Hle.
    split.
    + apply Qle_shift_div_l; [done|]. rewrite Qmult_0_l.
      rewrite <- (Zle_Qle 0). lia.
    + apply Qle_shift_div_r; [done|]. rewrite Qmult_1_l.
      rewrite <- Zle_Qle. lia.
  - unfold calculate_win_rate. destruct pnl as [|p pnl]; [by vm_compute|].
    change (length (p :: pnl) =? 0)%nat with false. cbv iota.
    set (l := p :: pnl).
    assert (Hn : (0 < inject_Z (Z.of_nat (length l)))%Q)
      by by apply count_positive.
    intros H1.
    assert (Heq : (inject_Z (Z.of_nat (length (List.filter (λ x, Qltb 0 x) l)))
                   == inject_Z (Z.of_nat (length l)))%Q).
    { rewrite <- (Qmult_1_l (inject_Z (Z.of_nat (length l)))).
      rewrite <- H1. field. lra. }
    clearbody l. unfold Qeq, inject_Z in Heq. cbn [Qnum Qden] in Heq.
    assert (Hlen : length (List.filter (λ x, Qltb 0 x) l) = length l) by lia.
    clear H1 Hn Heq. rename Hlen into Heq.
    induction l as [|a l IH]; [constructor|].
    simpl in Heq. pose proof (filter_length_le (λ x, Qltb 0 x) l) as Hle.
    destruct (Qltb 0 a) eqn:E; simpl in Heq; [|lia].
    constructor; [by apply Qltb_lt|]. apply IH. lia.
Qed.

(** X16. [calculate_profit_factor] returns the infinite sentinel exactly
    when the ledger has no losing trade and at least one winning trade, and
    every finite value it returns is non-negative; with no winning and no
    losing trade it returns 0. *)
Theorem profit_factor_cases (pnl : list Q) :
  let W := List.filter (λ x, Qltb 0 x) pnl in
  let L := List.filter (λ x, Qltb x 0) pnl in
  (Helpers.calculate_profit_factor pnl = Infinite ↔ L = [] ∧ W ≠ [])
  ∧ (∀ q, Helpers.calculate_profit_factor pnl = Finite q → (0 <= q)%Q)
  ∧ (L = [] → W = [] → Helpers.calculate_profit_factor pnl = Finite 0).
Proof.
  intros W L. unfold Helpers.calculate_profit_factor. fold W. fold L.
  pose proof (winners_positive pnl) as HW. fold W in HW.
  pose proof (losers_negative pnl) as HL. fold L in HL.
  assert (HWne : length pnl = 0%nat → W = [])
    by (unfold W; by destruct pnl).
  assert (HLz : Qeq_bool (Qabs (Qsum L)) 0 = true ↔ L = []).
  { split.
    - intros E. apply Qeq_bool_iff in E.
      destruct L as [|l L']; [done|]. exfalso.
      pose proof (Qsum_negative _ HL ltac:(done)) as Hn.
      rewrite Qabs_neg in E by lra. lra.
    - intros ->. by vm_compute. }
  assert (HWp : Qltb 0 (Qsum W) = true ↔ W ≠ []).
  { split.
    - intros E Hnil. rewrite Hnil in E. by vm_compute in E.
    - intros Hne. apply Qltb_lt. by apply Qsum_positive. }
  clearbody W L.
  destruct (length pnl =? 0)%nat eqn:En.
  { apply Nat.eqb_eq in En. specialize (HWne En). subst W.
    split; [split; [done|by intros [_ ?]]|]. split; [|done].
    intros q [= <-]. lra. }
  destruct (Qeq_bool (Qabs (Qsum L)) 0) eqn:Ez.
  - assert (L = []) by by apply HLz. subst L.
    destruct (Qltb 0 (Qsum W)) eqn:Ep.
    + assert (W ≠ []) by by apply HWp.
      split; [by split|]. split; [done|]. intros _ ?. done.
    + assert (W = []).
      { destruct W as [|w W']; [done|]. exfalso.
        assert (Hc : false = true) by by apply HWp. done. }
      split; [split; [done|by intros [_ ?]]|].
      split; [intros q [= <-]; lra|done].
  - assert (Hne : L ≠ []).
    { intros Hnil. apply HLz in Hnil. congruence. }
    split; [split; [done|by intros [? _]]|]. split; [|done].
    intros q [= <-].
    pose proof (Qsum_negative _ HL Hne) as Hn.
    pose proof (Qsum_nonneg _ HW) as Hp.
    apply Qle_shift_div_l; [rewrite Qabs_neg by lra; lra|]. lra.
Qed.

(** X17. [calculate_avg_rr] is never negative. *)
Theorem avg_rr_nonneg (pnl : list Q) : (0 <= calculate_avg_rr pnl)%Q.
Proof.
  unfold calculate_avg_rr.
  pose proof (mean_nonneg _ (winners_positive pnl)) as HW.
  set (W := List.filter (λ x, Qltb 0 x) pnl) in *.
  set (L := List.filter (λ x, Qltb x 0) pnl).
  assert (Hw : (0 <= (if (0 <? length W)%nat then mean W else 0))%Q)
    by (destruct (0 <? length W)%nat; lra).
  destruct (length pnl =? 0)%nat; [lra|].
  destruct ((length L =? 0)%nat || Qeq_bool (mean L) 0); [done|].
  destruct (Qltb 0 (Qabs (mean L))) eqn:E; [|lra].
  apply Qltb_lt in E. apply Qle_shift_div_l; [done|]. lra.
Qed.

(** ** Helpers: stand-alone position sizing *)

(** X18. [helpers.calculate_position_size]: it raises (division by zero)
    exactly when stop distance and account size are positive and the cost
    per contract [stop_distance_points * point_value] is zero; otherwise
    the size is never negative, is 0 when the stop distance or the account
    size is not positive, and, for a positive point value, account size and
    stop distance and a non-negative risk fraction, the dollar risk of the
    size [size * stop_distance_points * point_value] does not exceed the
    budget [account_size * risk_pct]. *)
Theorem helper_position_size_within_budget (a r s pv : Q) :
  (Helpers.calculate_position_size a r s pv = None
   ↔ (0 < s)%Q ∧ (0 < a)%Q ∧ (s * pv == 0)%Q)
  ∧ ∀ n, Helpers.calculate_position_size a r s pv = Some n →
      0 <= n
      ∧ ((s <= 0)%Q ∨ (a <= 0)%Q → n = 0)
      ∧ ((0 < pv)%Q → (0 < a)%Q → (0 < s)%Q → (0 <= r)%Q →
         (inject_Z n * s * pv <= a * r)%Q).
Proof.
  unfold Helpers.calculate_position_size.
  destruct (Qleb s 0) eqn:Es; [apply Qleb_le in Es|apply Qleb_gt in Es];
    simpl.
  { split; [split; [done|intros (? & _); lra]|].
    intros n [= <-]. split; [lia|]. split; [done|]. intros; lra. }
  destruct (Qleb a 0) eqn:Ea; [apply Qleb_le in Ea|apply Qleb_gt in Ea];
    simpl.
  { split; [split; [done|intros (_ & ? & _); lra]|].
    intros n [= <-]. split; [lia|]. split; [done|]. intros; lra. }
  destruct (Qeq_bool (s * pv) 0) eqn:Ez.
  { apply Qeq_bool_iff in Ez. split; [by split|]. done. }
  split; [split; [done|]|].
  { intros (_ & _ & Hz). apply Qeq_bool_iff in Hz. congruence. }
  intros n [= <-]. split; [lia|]. split; [intros [?|?]; lra|].
  intros Hpv _ _ Hr.
  set (ratio := (a * r / (s * pv))%Q).
  assert (Hc : (0 < s * pv)%Q) by nra.
  assert (Hr0 : (0 <= ratio)%Q).
  { unfold ratio. apply Qle_shift_div_l; [done|]. nra. }
  assert (Hrc : (ratio * (s * pv) == a * r)%Q).
  { unfold ratio. field. lra. }
  pose proof (py_int_below ratio Hr0) as Hb.
  assert (H0 : 0 <= py_int ratio).
  { rewrite py_int_floor by done. rewrite <- (Qfloor_Z 0).
    by apply Qfloor_resp_le. }
  rewrite Z.max_r by done. nra.
Qed.

(** ** Helpers: configuration warnings *)

(** X19. [validate_config_ranges] returns no warning exactly when the risk
    per trade is at most 1%, the daily loss limit at most 5%, the
    reward:risk ratio at least 1, the trade cap at most 15 and the stop
    between 10 and 50 points; it never returns more than six warnings; and
    a risk per trade above 2% always produces two warnings (the 2% one and
    the 1% one). *)
Theorem validate_config_ranges_cases (c : StrategyConfig) :
  (Helpers.validate_config_ranges c = [] ↔ config_in_safe_ranges c)
  ∧ (length (Helpers.validate_config_ranges c) ≤ 6)%nat
  ∧ ((2 # 100 < risk_per_trade_pct c)%Q →
     (2 ≤ length (Helpers.validate_config_ranges c))%nat).
Proof.
  unfold Helpers.validate_config_ranges, config_in_safe_ranges.
  destruct (Qltb (2 # 100) (risk_per_trade_pct c)) eqn:E1;
    [apply Qltb_lt in E1|apply Qltb_ge in E1];
  (destruct (Qltb (1 # 100) (risk_per_trade_pct c)) eqn:E2;
    [apply Qltb_lt in E2|apply Qltb_ge in E2]);
  (destruct (Qltb (5 # 100) (max_daily_loss_pct c)) eqn:E3;
    [apply Qltb_lt in E3|apply Qltb_ge in E3]);
  (destruct (Qltb (reward_risk_ratio c) 1) eqn:E4;
    [apply Qltb_lt in E4|apply Qltb_ge in E4]);
  (destruct (15 <? max_trades_per_session c) eqn:E5;
    [apply Z.ltb_lt in E5|apply Z.ltb_ge in E5]);
  (destruct (Qltb (stop_loss_points c) 10) eqn:E6;
    [apply Qltb_lt in E6|apply Qltb_ge in E6]);
  (destruct (Qltb 50 (stop_loss_points c)) eqn:E7;
    [apply Qltb_lt in E7|apply Qltb_ge in E7]);
  try (exfalso; lra);
  (split; [split; [intros Hnil; try discriminate Hnil;
                   repeat split; first [lra | lia]
                  |intros (? & ? & ? & ? & ? & ?); try reflexivity;
                   exfalso; first [lra | lia]]
          |split; [simpl; lia|intros ?; simpl; first [lia | lra]]]).
Qed.

Lemma validate_config_ranges_cases_witness :
  (2 ≤ length (Helpers.validate_config_ranges
                 {| account_size := 25000; risk_per_trade_pct := 3 # 100;
                    max_daily_loss_pct := 10 # 100; symbol := "MNQ";
                    timeframe := "5m"; trend_ema_period := 50;
                    fast_ema_period := 9; slow_ema_period := 21;
                    volume_sma_period := 20; volume_multiplier := 12 # 10;
                    atr_period := 14; atr_stop_multiplier := 15 # 10;
                    atr_breakout_multiplier := 1; stop_loss_points := 25;
                    reward_risk_ratio := 175 # 100;
                    trailing_stop_pct := 1 # 2; use_atr_stops := true;
                    max_trades_per_session := 6; session_start := "08:30";
                    session_end := "15:00"; orb_period_minutes := 15;
                    orb_atr_filter := true; strategy_mode := "hybrid1";
                    trend_vs_scalp_bias := 7 # 10; slippage_pct := 1 # 1000;
                    commission_per_contract := 62 # 100;
                    paper_mode := true |}))%nat
  ∧ Helpers.validate_config_ranges default_config = [].
Proof.
  split.
  - apply validate_config_ranges_cases. vm_compute. reflexivity.
  - apply validate_config_ranges_cases. unfold config_in_safe_ranges.
    repeat split; vm_compute; discriminate.
Defined.

(** ** Helpers: maximum drawdown *)

Section Drawdown.







End Drawdown.



(** A curve that starts at zero: the first cell of [drawdown / peak] is a
    NaN, the minimum is taken over the other cells. *)
Lemma max_drawdown_zero_start :
  Helpers.calculate_max_drawdown [0; 1]%Q = Some (0%Q, 0%Q)
  ∧ Helpers.calculate_max_drawdown [0; 2; 1]%Q = Some (1%Q, (1 # 2)%Q)
  ∧ Helpers.calculate_max_drawdown [0; -1]%Q = None
  ∧ Helpers.calculate_max_drawdown [0; 0]%Q = None.
Proof. by vm_compute. Qed.

(** ** Backtest: book-keeping of the loop *)

Section LoopBooks.

Variable generate_signal_hybrid1 :
  list EnrichedBar → StrategyConfig → Z → option TradeSignal.
Variable generate_signal_hybrid2 :
  list EnrichedBar → StrategyConfig → option Q → option Q → Z
  → option TradeSignal.
Variable clock : Z → string.
Variable cfg : StrategyConfig.
Variable df_full : list EnrichedBar.
Variable test_start : Z.

Local Abbreviation entry := (phase_entry generate_signal_hybrid1
  generate_signal_hybrid2 clock cfg df_full test_start).
Local Abbreviation step := (bar_step generate_signal_hybrid1
  generate_signal_hybrid2 clock cfg df_full test_start).
Local Abbreviation loop := (run_loop generate_signal_hybrid1
  generate_signal_hybrid2 clock cfg df_full test_start).
Local Abbreviation core := (loop_core cfg df_full test_start).
Local Abbreviation inv := (loop_inv cfg df_full test_start).

Lemma iloc_in_range {A} (l : list A) (i : Z) :
  - len l <= i < len l → ∃ x, iloc l i = Ok x.
Proof.
  intros H. unfold iloc.
  set (j := if i <? 0 then len l + i else i).
  assert (Hj : 0 <= j < len l) by (unfold j; destruct (i <? 0) eqn:E; lia).
  assert (Hb : (0 <=? j) && (j <? len l) = true)
    by (apply andb_true_iff; split; lia).
  rewrite Hb. destruct (l !! Z.to_nat j) eqn:El; [eauto|].
  apply lookup_ge_None in El. unfold len in Hj. lia.
Qed.

Lemma iloc_out_of_range {A} (l : list A) (i : Z) :
  i < - len l ∨ len l <= i → iloc l i = Raise IndexError.
Proof.
  intros H. unfold iloc.
  set (j := if i <? 0 then len l + i else i).
  assert (Hj : j < 0 ∨ len l <= j)
    by (unfold j; destruct (i <? 0) eqn:E; lia).
  assert (Hb : (0 <=? j) && (j <? len l) = false)
    by (apply andb_false_iff; lia).
  by rewrite Hb.
Qed.

Lemma ids_upto_succ (n : Z) : 0 <= n → ids_upto (n + 1) = ids_upto n ++ [n + 1].
Proof.
  intros H. unfold ids_upto.
  replace (Z.to_nat (n + 1)) with (S (Z.to_nat n)) by lia.
  rewrite seq_S, map_app. simpl. do 2 f_equal. lia.
Qed.

Lemma ids_upto_length (n : Z) : 0 <= n → len (ids_upto n) = n.
Proof.
  intros H. unfold len, ids_upto. rewrite length_map, length_seq. lia.
Qed.

Lemma position_size_range (rm : RiskManager) (d : Q) :
  0 <= RM.calculate_position_size rm d <= 100.
Proof.
  unfold RM.calculate_position_size. destruct (Qleb d 0); [lia|].
  pose proof (margin_cap_le_100 (account_size (config rm))). lia.
Qed.

Lemma head_snoc {A} (l : list A) (x y : A) :
  head l = Some x → head (l ++ [y]) = Some x.
Proof. by destruct l. Qed.

Lemma initial_state_inv (i : Z) : inv i (initial_state cfg).
Proof.
  unfold loop_inv, loop_core, book_ok, entered_ids, initial_state. simpl.
  repeat split; try done. lra.
Qed.

Lemma session_core (i : Z) (st : LoopState) :
  core i st → core i (phase_session df_full i st).
Proof.
  intros H. unfold phase_session. destruct (i mod 78 =? 0); exact H.
Qed.

Lemma exit_core (i : Z) (row : EnrichedBar) (st : LoopState) :
  core i st → i < len df_full →
  ∃ st', phase_exit i row st = Ok st' ∧ core i st'.
Proof.
  intros (Hb & Hc & Hids & Htr & Hct & Hacc & Hhd & Hsig) Hi.
  unfold phase_exit. unfold book_ok in Hb. unfold entered_ids in Hids, Hsig.
  destruct (current_trade st) as [ct|] eqn:Ect.
  2:{ exists st. split; [done|].
      unfold loop_core, book_ok, entered_ids. rewrite Ect. done. }
  destruct Hb as [p Hp]. destruct Hct as (Hen & Hlt & Hle & Hpos).
  destruct (check_exit_singleton (risk_mgr st) (ct_id ct) p
              (high (bar row)) (low (bar row)) (close (bar row)) Hp)
    as [[p' Hp'] Hreason].
  destruct (RM.check_exit_conditions _ _ _ _ _) as [[[price reason]|] rm1];
    cbn [fst snd] in *.
  - destruct (process_exit_singleton rm1 (ct_id ct) p' price reason Hp')
      as (r & Hr & He).
    destruct (RM.process_exit rm1 (ct_id ct) price reason) as [info rm2].
    cbn [fst snd] in *. subst info. eexists. split; [reflexivity|].
    unfold loop_core, book_ok, entered_ids.
    cbn [risk_mgr account equity ls_trades current_trade trade_id_counter
         ls_signals_generated ls_signals_filtered].
    assert (Hl : map (λ t, ct_id (tr_entry t))
                   (ls_trades st ++ [close_trade ct r price reason i]) ++ []
                 = map (λ t, ct_id (tr_entry t)) (ls_trades st) ++ [ct_id ct]).
    { by rewrite map_app, app_nil_r. }
    rewrite Hl.
    split; [done|]. split; [done|]. split; [done|]. split.
    { apply Forall_app. split; [done|]. constructor; [|done].
      split; [exact Hen|]. unfold trade_bars_ok, is_session_end.
      cbn [close_trade tr_entry tr_exit_bar tr_bars_held tr_exit_reason].
      split; [lia|]. split; [done|]. split; [intros _; lia|].
      destruct (Hreason price reason eq_refl) as [-> | ->]; by vm_compute. }
    split; [done|]. split; [|done].
    rewrite map_app, Qsum_app.
    cbn [map close_trade tr_pnl Qsum fold_right]. rewrite Hacc. ring.
  - eexists. split; [reflexivity|].
    unfold loop_core, book_ok, entered_ids.
    cbn [set_risk_mgr risk_mgr account equity ls_trades current_trade
         trade_id_counter ls_signals_generated ls_signals_filtered].
    rewrite Ect. split; [by eauto|]. done.
Qed.

Lemma entry_core (i : Z) (st : LoopState) :
  core i st → - len df_full <= i < len df_full → core (i + 1) (entry i st).
Proof.
  intros (Hb & Hc & Hids & Htr & Hct & Hacc & Hhd & Hsig) Hi.
  unfold phase_entry. unfold book_ok in Hb. unfold entered_ids in Hids, Hsig.
  destruct (current_trade st) as [ct|] eqn:Ect.
  { unfold loop_core, book_ok, entered_ids. rewrite Ect.
    destruct Hct as (Hen & Hlt & Hle & Hpos).
    split; [done|]. split; [done|]. split; [done|]. split; [done|].
    split; [|done]. split; [done|]. lia. }
  rewrite app_nil_r in Hids, Hsig.
  pose proof (can_trade_positions (risk_mgr st)) as Hcp.
  destruct (RM.can_trade (risk_mgr st)) as [[can msg] rm1].
  cbn [snd] in Hcp. rewrite Hb in Hcp.
  assert (Hflat : core (i + 1) (set_risk_mgr rm1 st)).
  { unfold loop_core, book_ok, entered_ids.
    cbn [set_risk_mgr risk_mgr account equity ls_trades current_trade
         trade_id_counter ls_signals_generated ls_signals_filtered].
    rewrite Ect, app_nil_r. done. }
  destruct (can && (test_start + 3 <? i)) eqn:Ecan; [|exact Hflat].
  apply andb_true_iff in Ecan as [_ Ei]. apply Z.ltb_lt in Ei.
  destruct (select_signal _ _ _ _ _ _) as [sg|]; [|exact Hflat].
  destruct (Signal_eqb (signal sg) FLAT) eqn:Ef; [exact Hflat|].
  set (qty := RM.calculate_position_size rm1
                (Qabs (sig_entry_price sg - sig_stop_loss sg))).
  pose proof (position_size_range rm1
                (Qabs (sig_entry_price sg - sig_stop_loss sg))) as Hq.
  fold qty in Hq.
  destruct ((0 <? qty) && Qleb (1 # 2) (confidence sg)) eqn:Eq.
  - apply andb_true_iff in Eq as [Eq1 Eq2].
    apply Z.ltb_lt in Eq1. apply Qleb_le in Eq2.
    unfold loop_core, book_ok, entered_ids.
    cbn [risk_mgr account equity ls_trades current_trade trade_id_counter
         ls_signals_generated ls_signals_filtered ct_id].
    split. { eexists. unfold RM.process_entry. cbn [open_positions].
             rewrite Hcp. apply insert_empty. }
    split; [lia|].
    split. { by rewrite ids_upto_succ, Hids. }
    split; [done|]. split.
    { unfold entry_ok.
      cbn [ct_entry_bar ct_quantity ct_confidence ct_direction].
      split; [|lia]. split; [done|]. split; [lia|]. split; [done|].
      destruct (signal sg); [by left|by right|done]. }
    split; [done|]. split; [done|].
    rewrite Hsig. unfold len. rewrite length_app. cbn [length]. lia.
  - unfold loop_core, book_ok, entered_ids.
    cbn [risk_mgr account equity ls_trades current_trade trade_id_counter
         ls_signals_generated ls_signals_filtered].
    rewrite app_nil_r.
    split; [done|]. split; [done|]. split; [done|]. split; [done|].
    split; [done|]. split; [done|]. split; [done|]. lia.
Qed.

Lemma equity_inv (i : Z) (st : LoopState) :
  core i st → inv i (phase_equity st).
Proof.
  intros (Hb & Hc & Hids & Htr & Hct & Hacc & Hhd & Hsig).
  split; [|apply last_snoc].
  unfold loop_core. split; [done|]. split; [done|]. split; [done|].
  split; [done|]. split; [done|]. split; [done|]. split; [|done].
  by apply head_snoc.
Qed.

Lemma bar_step_inv (i : Z) (st : LoopState) :
  inv i st → - len df_full <= i < len df_full →
  ∃ st', snd (step i st) = Ok st' ∧ inv (i + 1) st'.
Proof.
  intros [Hcore _] Hi. unfold bar_step.
  destruct (iloc_in_range df_full i Hi) as [row ->].
  pose proof (session_core i st Hcore) as H1.
  destruct (exit_core i row _ H1) as (s2 & -> & H2); [lia|].
  eexists. split; [reflexivity|]. by apply equity_inv, entry_core.
Qed.

Lemma run_loop_inv (n s : nat) (a : Z) (st : LoopState) :
  inv (a + Z.of_nat s) st →
  - len df_full <= a + Z.of_nat s →
  a + Z.of_nat s + Z.of_nat n <= len df_full →
  ∃ st', snd (loop (map (λ k, a + Z.of_nat k) (seq s n)) st) = Ok st'
         ∧ inv (a + Z.of_nat s + Z.of_nat n) st'.
Proof.
  revert s st. induction n as [|n IH]; intros s st Hinv Hlo Hhi.
  { exists st. split; [done|]. by rewrite Z.add_0_r. }
  cbn [seq map run_loop].
  destruct (bar_step_inv (a + Z.of_nat s) st Hinv) as (st1 & E1 & H1);
    [lia|].
  destruct (step (a + Z.of_nat s) st) as [seen r]. cbn [snd] in E1. subst r.
  replace (a + Z.of_nat s + 1) with (a + Z.of_nat (S s)) in H1 by lia.
  destruct (IH (S s) st1 H1) as (st2 & E2 & H2); [lia|lia|].
  destruct (loop _ st1) as [seen' r']. cbn [snd] in *. subst r'.
  exists st2. split; [done|].
  by replace (a + Z.of_nat s + Z.of_nat (S n))
    with (a + Z.of_nat (S s) + Z.of_nat n) by lia.
Qed.

Lemma final_close_inv (i : Z) (st : LoopState) :
  inv i st →
  ∃ st', final_close df_full st = Ok st'
    ∧ trade_ids (ls_trades st') = ids_upto (len (ls_trades st'))
    ∧ Forall (trade_ok df_full test_start) (ls_trades st')
    ∧ head (equity st') = Some (account_size cfg)
    ∧ last (equity st') = Some (account st')
    ∧ (account st' == account_size cfg + Qsum (map tr_pnl (ls_trades st')))%Q
    ∧ ls_signals_generated st'
      = len (ls_trades st') + ls_signals_filtered st'.
Proof.
  intros [(Hb & Hc & Hids & Htr & Hct & Hacc & Hhd & Hsig) Hlast].
  pose proof (ids_upto_length _ Hc) as Hlen. rewrite <- Hids in Hlen.
  unfold final_close. unfold book_ok in Hb. unfold entered_ids in *.
  destruct (current_trade st) as [ct|] eqn:Ect.
  2:{ exists st. rewrite app_nil_r in Hids, Hsig, Hlen. split; [done|].
      unfold len in Hlen, Hsig. rewrite length_map in Hlen, Hsig.
      fold (len (ls_trades st)) in Hlen, Hsig. unfold trade_ids.
      rewrite Hlen. split; [done|]. split; [done|]. split; [done|].
      split; [done|]. split; [done|]. by rewrite <- Hlen. }
  destruct Hb as [p Hp]. destruct Hct as (Hen & Hlt & Hle & Hpos).
  destruct (iloc_in_range df_full (-1)) as [last_row ->]; [lia|].
  destruct (process_exit_singleton (risk_mgr st) (ct_id ct) p
              (close (bar last_row)) "Session End" Hp) as (r & Hr & He).
  destruct (RM.process_exit _ _ _ _) as [info rm2].
  cbn [fst snd] in *. subst info. eexists. split; [reflexivity|].
  cbn [risk_mgr account equity ls_trades current_trade trade_id_counter
       ls_signals_generated ls_signals_filtered].
  set (t := close_trade ct r (close (bar last_row)) "Session End"
              (len df_full - 1)).
  assert (Hl : trade_ids (ls_trades st ++ [t])
               = map (λ t, ct_id (tr_entry t)) (ls_trades st) ++ [ct_id ct]).
  { unfold trade_ids. by rewrite map_app. }
  assert (Hn : len (ls_trades st ++ [t]) = trade_id_counter st).
  { rewrite <- Hlen. unfold len. rewrite !length_app, length_map. done. }
  split. { by rewrite Hl, Hn. }
  split.
  { apply Forall_app. split; [done|]. constructor; [|done].
    split; [exact Hen|]. unfold trade_bars_ok, is_session_end, t.
    cbn [close_trade tr_entry tr_exit_bar tr_bars_held tr_exit_reason].
    split; [lia|]. split; [done|]. split; [|done].
    intros Hf. by vm_compute in Hf. }
  split; [by apply head_snoc|]. split; [apply last_snoc|]. split.
  { rewrite map_app, Qsum_app. unfold t.
    cbn [map close_trade tr_pnl Qsum fold_right]. rewrite Hacc. ring. }
  rewrite Hn, Hsig, Hlen. done.
Qed.

Lemma win_loss_partition (pnl : list Q) :
  len (List.filter (λ x, Qltb 0 x) pnl)
  + len (List.filter (λ x, Qleb x 0) pnl) = len pnl.
Proof.
  unfold len, Qltb, Qleb. induction pnl as [|x l IH]; [done|].
  cbn [List.filter]. destruct (Qle_bool x 0); cbn [negb length]; lia.
Qed.

End LoopBooks.

Section RunBooks.

Variable generate_signal_hybrid1 :
  list EnrichedBar → StrategyConfig → Z → option TradeSignal.
Variable generate_signal_hybrid2 :
  list EnrichedBar → StrategyConfig → option Q → option Q → Z
  → option TradeSignal.
Variable clock : Z → string.
Variable cfg : StrategyConfig.
Variable df_full : list EnrichedBar.
Variable test_start : Z.

Local Abbreviation from_start := (run_from_start generate_signal_hybrid1
  generate_signal_hybrid2 clock cfg df_full test_start).

Lemma run_from_start_result (walk_forward : bool) (in_sample_pct : Q) :
  - len df_full <= test_start →
  ∃ r, snd (from_start walk_forward in_sample_pct) = Ok r
       ∧ result_ok cfg df_full test_start r
       ∧ metrics_ok walk_forward r.
Proof.
  intros Hlo. unfold run_from_start.
  assert (Hloop : ∃ st i,
            snd (run_loop generate_signal_hybrid1 generate_signal_hybrid2
                   clock cfg df_full test_start
                   (py_range test_start (len df_full)) (initial_state cfg))
            = Ok st
            ∧ loop_inv cfg df_full test_start i st).
  { unfold py_range.
    destruct (Z.le_gt_cases test_start (len df_full)) as [Hle|Hgt].
    - destruct (run_loop_inv generate_signal_hybrid1 generate_signal_hybrid2
                  clock cfg df_full test_start
                  (Z.to_nat (len df_full - test_start)) 0 test_start
                  (initial_state cfg)) as (st & E & H);
        [apply initial_state_inv|lia|lia|]. eauto.
    - replace (Z.to_nat (len df_full - test_start)) with 0%nat by lia.
      exists (initial_state cfg), 0. split; [done|apply initial_state_inv]. }
  destruct Hloop as (st & i & E & Hinv).
  destruct (run_loop _ _ _ _ _ _ _ _) as [seen r0]. cbn [snd] in E. subst r0.
  destruct (final_close_inv cfg df_full test_start i st Hinv)
    as (st' & -> & Hids & Htr & Hhd & Hlast & Hacc & Hsig).
  eexists. split; [reflexivity|]. split.
  - unfold result_ok.
    cbn [trades equity_curve signals_generated signals_filtered].
    split; [done|]. split; [done|]. split; [done|]. split; [by eauto|done].
  - unfold metrics_ok, compute_metrics. cbn [metrics trades equity_curve].
    destruct (0 <? length (ls_trades st'))%nat eqn:El.
    + apply Nat.ltb_lt in El.
      pose proof (win_loss_partition (map tr_pnl (ls_trades st'))) as Hp.
      unfold len in *. rewrite length_map in Hp.
      split; [done|]. split; [lia|]. split; [lia|]. split; [lia|].
      split; [exact Hp|]. split; [by eauto|done].
    + apply Nat.ltb_ge in El. split; [|done].
      destruct (ls_trades st'); [done|]. simpl in El. lia.
Qed.

Lemma run_from_start_raises (walk_forward : bool) (in_sample_pct : Q) :
  test_start < - len df_full →
  snd (from_start walk_forward in_sample_pct) = Raise IndexError.
Proof.
  intros H. unfold run_from_start, py_range.
  destruct (Z.to_nat (len df_full - test_start)) as [|n] eqn:En;
    [unfold len in *; lia|].
  cbn [seq map run_loop]. unfold bar_step.
  rewrite iloc_out_of_range by (left; lia). done.
Qed.

End RunBooks.

(** ** Backtest: what a run returns *)

Section BacktestBooks.

Variable compute_indicators : list Bar → StrategyConfig → list EnrichedBar.
Variable generate_signal_hybrid1 :
  list EnrichedBar → StrategyConfig → Z → option TradeSignal.
Variable generate_signal_hybrid2 :
  list EnrichedBar → StrategyConfig → option Q → option Q → Z
  → option TradeSignal.
Variable clock : Z → string.

Local Abbreviation backtest := (run_backtest compute_indicators
  generate_signal_hybrid1 generate_signal_hybrid2 clock).

Lemma backtest_short (df : list Bar) (cfg : StrategyConfig)
    (walk_forward : bool) (in_sample_pct : Q) :
  len df < trend_ema_period cfg + 20 →
  backtest df cfg walk_forward in_sample_pct = Ok insufficient_data.
Proof.
  intros H. unfold run_backtest, run_backtest_trace.
  apply Z.ltb_lt in H. by rewrite H.
Qed.

Lemma backtest_long (df : list Bar) (cfg : StrategyConfig)
    (walk_forward : bool) (in_sample_pct : Q) :
  trend_ema_period cfg + 20 <= len df →
  let df_full := compute_indicators df cfg in
  let test_start := start_index df cfg walk_forward in_sample_pct in
  (- len df_full <= test_start →
   ∃ r, backtest df cfg walk_forward in_sample_pct = Ok r
        ∧ result_ok cfg df_full test_start r
        ∧ metrics_ok walk_forward r)
  ∧ (test_start < - len df_full →
     backtest df cfg walk_forward in_sample_pct = Raise IndexError).
Proof.
  intros H df_full test_start. unfold run_backtest, run_backtest_trace.
  apply Z.ltb_ge in H. rewrite H. split; intros Hs.
  - by apply run_from_start_result.
  - by apply run_from_start_raises.
Qed.

Lemma backtest_ok (df : list Bar) (cfg : StrategyConfig)
    (walk_forward : bool) (in_sample_pct : Q) (r : BacktestResult) :
  backtest df cfg walk_forward in_sample_pct = Ok r →
  (len df < trend_ema_period cfg + 20 ∧ r = insufficient_data)
  ∨ (trend_ema_period cfg + 20 <= len df
     ∧ result_ok cfg (compute_indicators df cfg)
         (start_index df cfg walk_forward in_sample_pct) r
     ∧ metrics_ok walk_forward r).
Proof.
  intros E.
  destruct (Z.lt_ge_cases (len df) (trend_ema_period cfg + 20)) as [Hs|Hl].
  { left. split; [done|].
    rewrite backtest_short in E by done. by injection E. }
  right. split; [done|].
  destruct (backtest_long df cfg walk_forward in_sample_pct Hl) as [H1 H2].
  destruct (Z.le_gt_cases (- len (compute_indicators df cfg))
              (start_index df cfg walk_forward in_sample_pct)) as [Hle|Hgt].
  - destruct (H1 Hle) as (r' & E' & Hr & Hm). rewrite E' in E.
    injection E as <-. done.
  - rewrite H2 in E by lia. done.
Qed.

(** X21. When the loop of [run_backtest] completes, whatever the strategy
    engine returns.  With too few bars the function returns at once.
    Otherwise the loop and the closing of a leftover trade run to the end
    exactly when the start index is not below minus the length of the
    indicator frame; below it the first row access raises IndexError.
    Neither raises KeyError: the loop never asks the risk manager to close
    a trade it does not hold.  (The date entries of the metrics, which
    index the raw frame, are outside the model.) *)
Theorem backtest_completion (df : list Bar) (cfg : StrategyConfig)
    (walk_forward : bool) (in_sample_pct : Q) :
  let n := len (compute_indicators df cfg) in
  let s := start_index df cfg walk_forward in_sample_pct in
  ((∃ r, backtest df cfg walk_forward in_sample_pct = Ok r)
   ↔ len df < trend_ema_period cfg + 20 ∨ - n <= s)
  ∧ (backtest df cfg walk_forward in_sample_pct = Raise IndexError
     ↔ trend_ema_period cfg + 20 <= len df ∧ s < - n)
  ∧ backtest df cfg walk_forward in_sample_pct ≠ Raise KeyError.
Proof.
  intros n s.
  destruct (Z.lt_ge_cases (len df) (trend_ema_period cfg + 20)) as [Hs|Hl].
  { rewrite backtest_short by done. split; [|split].
    - split; [by left|by eauto].
    - split; [done|lia].
    - done. }
  destruct (backtest_long df cfg walk_forward in_sample_pct Hl) as [H1 H2].
  fold n s in H1, H2.
  destruct (Z.le_gt_cases (- n) s) as [Hle|Hgt].
  - destruct (H1 Hle) as (r & E & _). rewrite E. split; [|split].
    + split; [by right|by eauto].
    + split; [done|lia].
    + done.
  - rewrite H2 by lia. split; [|split].
    + split; [by intros [r ?]|lia].
    + split; [lia|done].
    + done.
Qed.

(** X22. The trades of a returned result carry the ids 1, 2, ..., in the
    order of the list: ids are handed out one by one, only to trades that
    are entered, and every entered trade is recorded exactly once. *)
Theorem trade_ids_sequential (df : list Bar) (cfg : StrategyConfig)
    (walk_forward : bool) (in_sample_pct : Q) (r : BacktestResult) :
  backtest df cfg walk_forward in_sample_pct = Ok r →
  trade_ids (trades r) = ids_upto (len (trades r)).
Proof.
  intros E.
  destruct (backtest_ok df cfg walk_forward in_sample_pct r E)
    as [[_ ->] | (_ & (H & _) & _)]; done.
Qed.

(** X23. Every recorded trade was entered on a bar after the first three
    bars that follow the start index, for at least 1 and at most 100
    contracts, on a proposal of confidence at least 0.5, and its direction
    is LONG or SHORT. *)
Theorem trade_entries_valid (df : list Bar) (cfg : StrategyConfig)
    (walk_forward : bool) (in_sample_pct : Q) (r : BacktestResult) :
  backtest df cfg walk_forward in_sample_pct = Ok r →
  Forall (λ t, entry_ok (start_index df cfg walk_forward in_sample_pct)
                 (tr_entry t)) (trades r).
Proof.
  intros E.
  destruct (backtest_ok df cfg walk_forward in_sample_pct r E)
    as [[_ ->] | (_ & (_ & H & _) & _)]; [constructor|].
  eapply Forall_impl; [exact H|]. by intros t [Ht _].
Qed.

(** X24. Every recorded trade is closed on a bar of the indicator frame no
    earlier than its entry bar, [bars_held] is the difference of the two, a
    trade closed by its stop or target is closed on a later bar than it was
    entered, and a trade closed by the forced exit is closed on the last
    bar. *)
Theorem trade_bars_ordered (df : list Bar) (cfg : StrategyConfig)
    (walk_forward : bool) (in_sample_pct : Q) (r : BacktestResult) :
  backtest df cfg walk_forward in_sample_pct = Ok r →
  Forall (trade_bars_ok (compute_indicators df cfg)) (trades r).
Proof.
  intros E.
  destruct (backtest_ok df cfg walk_forward in_sample_pct r E)
    as [[_ ->] | (_ & (_ & H & _) & _)]; [constructor|].
  eapply Forall_impl; [exact H|]. by intros t [_ Ht].
Qed.

(** X25. With enough data, the equity curve of a returned result starts at
    the configured account size and its last sample is the account size
    plus the sum of the net P&L of the recorded trades (floats read as
    exact numbers). *)
Theorem equity_curve_balance (df : list Bar) (cfg : StrategyConfig)
    (walk_forward : bool) (in_sample_pct : Q) (r : BacktestResult) :
  trend_ema_period cfg + 20 <= len df →
  backtest df cfg walk_forward in_sample_pct = Ok r →
  head (equity_curve r) = Some (account_size cfg)
  ∧ ∃ a, last (equity_curve r) = Some a
         ∧ (a == account_size cfg + Qsum (map tr_pnl (trades r)))%Q.
Proof.
  intros Hl E.
  destruct (backtest_ok df cfg walk_forward in_sample_pct r E)
    as [[Hs _] | (_ & (_ & _ & Hh & Ha & _) & _)]; [lia|done].
Qed.

(** X26. In a returned result the number of generated signals is the number
    of recorded trades plus the number of filtered signals: every proposal
    that is counted is either entered, and then recorded, or filtered. *)
Theorem signal_counts_add_up (df : list Bar) (cfg : StrategyConfig)
    (walk_forward : bool) (in_sample_pct : Q) (r : BacktestResult) :
  backtest df cfg walk_forward in_sample_pct = Ok r →
  signals_generated r = len (trades r) + signals_filtered r.
Proof.
  intros E.
  destruct (backtest_ok df cfg walk_forward in_sample_pct r E)
    as [[_ ->] | (_ & (_ & _ & _ & _ & H) & _)]; done.
Qed.

(** X27. With enough data, the metrics of a returned result are the
    no-trades note exactly when no trade was recorded; otherwise they are a
    summary whose [total_trades] is the number of recorded trades, whose
    [winning_trades] and [losing_trades] add up to it, and whose
    [final_balance] is the last sample of the equity curve rounded to
    cents; both carry the [walk_forward] flag of the call. *)
Theorem metrics_trade_counts (df : list Bar) (cfg : StrategyConfig)
    (walk_forward : bool) (in_sample_pct : Q) (r : BacktestResult) :
  trend_ema_period cfg + 20 <= len df →
  backtest df cfg walk_forward in_sample_pct = Ok r →
  match metrics r with
  | MetricsError _ => False
  | MetricsNoTrades _ w => trades r = [] ∧ w = walk_forward
  | MetricsSummary total winning losing _ _ _ final_balance w _ =>
      total = len (trades r) ∧ 0 < total
      ∧ 0 <= winning ∧ 0 <= losing ∧ winning + losing = total
      ∧ (∃ a, last (equity_curve r) = Some a ∧ final_balance = round2 a)
      ∧ w = walk_forward
  end.
Proof.
  intros Hl E.
  destruct (backtest_ok df cfg walk_forward in_sample_pct r E)
    as [[Hs _] | (_ & _ & H)]; [lia|exact H].
Qed.

End BacktestBooks.

Lemma backtest_completion_witness :
  (∃ r, Demo.run = Ok r)
  ∧ run_backtest Demo.compute_indicators Demo.always_long Demo.never
      Demo.clock Demo.df default_config true (-2) = Raise IndexError.
Proof.
  split.
  - apply (backtest_completion Demo.compute_indicators Demo.always_long
             Demo.never Demo.clock Demo.df default_config false (7 # 10)).
    right. vm_compute. discriminate.
  - apply (backtest_completion Demo.compute_indicators Demo.always_long
             Demo.never Demo.clock Demo.df default_config true (-2)).
    split; vm_compute; (reflexivity || discriminate).
Defined.

Lemma trade_ids_sequential_witness :
  ∃ r, Demo.run = Ok r ∧ trade_ids (trades r) = ids_upto (len (trades r)).
Proof.
  destruct Demo.run as [r|e] eqn:E; [|by vm_compute in E].
  exists r. split; [done|].
  apply (trade_ids_sequential Demo.compute_indicators Demo.always_long
           Demo.never Demo.clock Demo.df default_config false (7 # 10) r).
  exact E.
Defined.

Lemma trade_entries_valid_witness :
  ∃ r, Demo.run = Ok r
       ∧ Forall (λ t, entry_ok 55 (tr_entry t)) (trades r).
Proof.
  destruct Demo.run as [r|e] eqn:E; [|by vm_compute in E].
  exists r. split; [done|].
  apply (trade_entries_valid Demo.compute_indicators Demo.always_long
           Demo.never Demo.clock Demo.df default_config false (7 # 10) r).
  exact E.
Defined.

Lemma trade_bars_ordered_witness :
  ∃ r, Demo.run = Ok r
       ∧ Forall (trade_bars_ok (Demo.compute_indicators Demo.df
                                  default_config)) (trades r).
Proof.
  destruct Demo.run as [r|e] eqn:E; [|by vm_compute in E].
  exists r. split; [done|].
  apply (trade_bars_ordered Demo.compute_indicators Demo.always_long
           Demo.never Demo.clock Demo.df default_config false (7 # 10) r).
  exact E.
Defined.

Lemma equity_curve_balance_witness :
  ∃ r, Demo.run = Ok r
       ∧ head (equity_curve r) = Some (account_size default_config)
       ∧ ∃ a, last (equity_curve r) = Some a
              ∧ (a == account_size default_config
                      + Qsum (map tr_pnl (trades r)))%Q.
Proof.
  destruct Demo.run as [r|e] eqn:E; [|by vm_compute in E].
  exists r. split; [done|].
  apply (equity_curve_balance Demo.compute_indicators Demo.always_long
           Demo.never Demo.clock Demo.df default_config false (7 # 10) r).
  - vm_compute. discriminate.
  - exact E.
Defined.

Lemma signal_counts_add_up_witness :
  ∃ r, Demo.run = Ok r
       ∧ signals_generated r = len (trades r) + signals_filtered r.
Proof.
  destruct Demo.run as [r|e] eqn:E; [|by vm_compute in E].
  exists r. split; [done|].
  apply (signal_counts_add_up Demo.compute_indicators Demo.always_long
           Demo.never Demo.clock Demo.df default_config false (7 # 10) r).
  exact E.
Defined.

Lemma metrics_trade_counts_witness :
  ∃ r, Demo.run = Ok r ∧ metrics_ok false r.
Proof.
  destruct Demo.run as [r|e] eqn:E; [|by vm_compute in E].
  exists r. split; [done|].
  apply (metrics_trade_counts Demo.compute_indicators Demo.always_long
           Demo.never Demo.clock Demo.df default_config false (7 # 10) r).
  - vm_compute. discriminate.
  - exact E.
Defined.

(** ** Risk manager: the loss limit in reachable states *)

Section LossLatch.

Lemma apply_op_loss_latch (rm : RiskManager) (o : Op) :
  (0 < RM.max_loss rm)%Q →
  ((daily_pnl rm <= - RM.max_loss rm)%Q → is_shutdown rm = true) →
  (daily_pnl (apply_op rm o) <= - RM.max_loss (apply_op rm o))%Q →
  is_shutdown (apply_op rm o) = true.
Proof.
  intros Hpos Hinv.
  destruct o as [| |d|id dir e s t q now|id price why|id price|id h l c];
    simpl.
  - unfold RM.max_loss. simpl. fold (RM.max_loss rm). intros H. lra.
  - unfold RM.can_trade. destruct (is_shutdown rm) eqn:Hs; [done|].
    destruct (Qleb (daily_pnl rm) (- RM.max_loss rm)) eqn:E; [done|].
    apply Qleb_gt in E. repeat case_match; simpl; intros Hle; lra.
  - exact Hinv.
  - exact Hinv.
  - destruct (open_positions rm !! id) as [pos|] eqn:Ep.
    + destruct (process_exit_shutdown_fields rm id pos price why Ep)
        as (Hs & _ & Hc).
      unfold RM.max_loss at 1. rewrite Hc. fold (RM.max_loss rm).
      intros H. apply Qleb_le in H. rewrite Hs. by rewrite H.
    + unfold RM.process_exit. rewrite Ep. exact Hinv.
  - unfold RM.update_trailing_stop.
    destruct (open_positions rm !! id); [|exact Hinv].
    repeat case_match; exact Hinv.
  - unfold RM.check_exit_conditions, RM.update_trailing_stop.
    destruct (open_positions rm !! id); [|exact Hinv].
    repeat case_match; exact Hinv.
Qed.

Lemma run_ops_keeps_config (ops : list Op) (rm : RiskManager) :
  config (run_ops ops rm) = config rm.
Proof.
  revert rm. induction ops as [|o ops IH]; intros rm; [done|].
  simpl. by rewrite IH, apply_op_keeps_config.
Qed.

Lemma run_ops_loss_latch (ops : list Op) (rm : RiskManager) :
  (0 < RM.max_loss rm)%Q →
  ((daily_pnl rm <= - RM.max_loss rm)%Q → is_shutdown rm = true) →
  (daily_pnl (run_ops ops rm) <= - RM.max_loss (run_ops ops rm))%Q →
  is_shutdown (run_ops ops rm) = true.
Proof.
  revert rm. induction ops as [|o ops IH]; intros rm Hpos Hinv; [exact Hinv|].
  simpl. apply IH.
  - unfold RM.max_loss. rewrite apply_op_keeps_config. exact Hpos.
  - by apply apply_op_loss_latch.
Qed.

End LossLatch.

(** X28. For a manager built with a positive loss limit
    ([account_size * max_daily_loss_pct > 0]), in every state reached by any
    sequence of calls, [reset_daily] included, [daily_pnl] is at or below
    minus the limit only if the shutdown flag is already set: the limit is
    crossed by [process_exit] alone, which sets the flag at once.  From such
    a state [can_trade] refuses with a shutdown message after any further
    calls other than [reset_daily]. *)
Theorem reachable_loss_limit_is_latched (cfg : StrategyConfig)
    (ops later : list Op) :
  (0 < account_size cfg * max_daily_loss_pct cfg)%Q →
  let rm := run_ops ops (RM.init cfg) in
  (daily_pnl rm <= - RM.max_loss rm)%Q →
  no_reset later = true →
  is_shutdown rm = true
  ∧ fst (fst (RM.can_trade (run_ops later rm))) = false
  ∧ is_shutdown_message (snd (fst (RM.can_trade (run_ops later rm)))) = true.
Proof.
  intros Hpos rm Hloss Hn.
  assert (Hs : is_shutdown rm = true).
  { apply run_ops_loss_latch; [exact Hpos| |exact Hloss].
    unfold RM.max_loss. simpl. intros H. lra. }
  split; [exact Hs|].
  pose proof (run_ops_keeps_shutdown later rm Hn Hs) as Hs'.
  unfold RM.can_trade. rewrite Hs'. simpl. split; [done|].
  unfold is_shutdown_message. by rewrite prefix_app.
Qed.

Lemma reachable_loss_limit_is_latched_witness :
  let ops := [OpProcessEntry 1 "LONG" 21500 21000 22000 1
                "2024-01-02T09:30:00";
              OpProcessExit 1 21000 "Stop Loss"] in
  let later := [OpProcessEntry 2 "LONG" 21000 20990 21020 1
                  "2024-01-02T10:00:00";
                OpProcessExit 2 21020 "Take Profit"] in
  is_shutdown (run_ops ops (RM.init default_config)) = true
  ∧ fst (fst (RM.can_trade
                (run_ops later (run_ops ops (RM.init default_config)))))
    = false.
Proof.
  intros ops later.
  destruct (reachable_loss_limit_is_latched default_config ops later)
    as (H1 & H2 & _).
  - vm_compute. reflexivity.
  - vm_compute. discriminate.
  - reflexivity.
  - split; [exact H1|exact H2].
Defined.
